(** * Oruga date pickers: calendar table row and datetime picker

    A shallow embedding of the date logic of two components of the Oruga
    UI library,

    - [ODatepickerTableRow] (week numbers, selectable dates, event
      markers, cell classes, keyboard focus), and
    - [ODatetimepicker] (the [computedValue] setter and the parser of
      the native [datetime-local] input),

    together with the part of ECMAScript's [Date] they rest on.

    Conventions.
    - A JavaScript number that the code computes is an integer or [NaN]:
      it is a [Num], that is an [option Z] with [None] for [NaN].  The one
      place where the code divides ([weeksInYear]) yields a rational.
    - A [Date] object is its time value, a [Num] of milliseconds since the
      epoch; the [Invalid Date] is the one whose time value is [NaN].
    - The time zone of the host is UTC, without daylight saving time:
      [LocalTime] and [UTC] are the identity.  Where a statement could
      depend on the host, it is made on what the code reads and builds
      in local time (the calendar fields of a date, the dates that
      [new Date(year, month, date, ...)] builds, the comparisons of
      dates), not on the time values of local dates.
    - A loop that may run for ever takes a number of rounds, [fuel], and
      returns [None] when they do not suffice. *)

From Stdlib Require Import ZArith QArith Qcanon Bool List Lia String Ascii.
From Stdlib Require Import DecimalString DecimalPos.
Import ListNotations.

Local Open Scope Z_scope.

(** ** JavaScript numbers *)

Module JS.

Definition Num := option Z.
Definition NaN : Num := None.

Definition lift1 (f : Z -> Z) (a : Num) : Num :=
  match a with Some x => Some (f x) | None => NaN end.

Definition lift2 (f : Z -> Z -> Z) (a b : Num) : Num :=
  match a, b with Some x, Some y => Some (f x y) | _, _ => NaN end.

(** A comparison with [NaN] on either side is [false]. *)
Definition cmp2 (f : Z -> Z -> bool) (a b : Num) : bool :=
  match a, b with Some x, Some y => f x y | _, _ => false end.

Definition add := lift2 Z.add.
Definition sub := lift2 Z.sub.
Definition neg := lift1 Z.opp.
(** [a % b]: the remainder takes the sign of the dividend. *)
Definition rem := lift2 Z.rem.

Definition seq := cmp2 Z.eqb.                       (* a === b *)
Definition sneq (a b : Num) := negb (seq a b).      (* a !== b *)
Definition lt := cmp2 Z.ltb.                        (* a < b *)
Definition le := cmp2 Z.leb.                        (* a <= b *)
Definition gt := cmp2 Z.gtb.                        (* a > b *)
Definition ge := cmp2 Z.geb.                        (* a >= b *)

(** [Math.sign] and, for integers [n] and [d > 0], [Math.floor(n / d)]
    and [Math.round(n / d)] (a tie rounds towards +infinity). *)
Definition Math_sign (a : Z) : Z := Z.sgn a.
Definition Math_floor_div (n d : Z) : Z := n / d.
Definition Math_round_div (n d : Z) : Z := (2 * n + d) / (2 * d).

(** Numbers that come out of a division: rationals or [NaN].  A rational
    is kept in lowest terms ([Qred]), so that equal numbers are equal
    terms; the integer [n] is [inject_Z n], that is [n # 1]. *)
Definition QNum := option Q.

Definition of_num (a : Num) : QNum :=
  match a with Some x => Some (inject_Z x) | None => None end.

(** [a / d] for a positive integer constant [d]. *)
Definition divq (a : Num) (d : positive) : QNum :=
  match a with Some x => Some (Qred (x # d)) | None => None end.

Definition qlift2 (f : Q -> Q -> Q) (a b : QNum) : QNum :=
  match a, b with Some x, Some y => Some (Qred (f x y)) | _, _ => None end.

Definition qadd := qlift2 Qplus.
Definition qsub := qlift2 Qminus.

Definition qgt (a b : QNum) : bool :=
  match a, b with
  | Some x, Some y => negb (Qle_bool x y)
  | _, _ => false
  end.

End JS.

Declare Scope js_scope.
Delimit Scope js_scope with js.
Notation "a === b" := (JS.seq a b) (at level 70, no associativity) : js_scope.
Notation "a !== b" := (JS.sneq a b) (at level 70, no associativity) : js_scope.
Notation "a + b" := (JS.add a b) : js_scope.
Notation "a - b" := (JS.sub a b) : js_scope.
Notation "- a" := (JS.neg a) : js_scope.
Notation "a < b" := (JS.lt a b) : js_scope.
Notation "a <= b" := (JS.le a b) : js_scope.
Notation "a > b" := (JS.gt a b) : js_scope.
Notation "a >= b" := (JS.ge a b) : js_scope.

(** ** ECMAScript: the abstract operations of Date objects *)

Module ES.

Definition msPerDay : Z := 86400000.
Definition msPerHour : Z := 3600000.
Definition msPerMinute : Z := 60000.
Definition msPerSecond : Z := 1000.

Definition Day (t : Z) : Z := t / msPerDay.
Definition TimeWithinDay (t : Z) : Z := t mod msPerDay.

Definition DaysInYear (y : Z) : Z :=
  if negb (y mod 4 =? 0) then 365
  else if negb (y mod 100 =? 0) then 366
  else if negb (y mod 400 =? 0) then 365
  else 366.

Definition DayFromYear (y : Z) : Z :=
  365 * (y - 1970) + (y - 1969) / 4 - (y - 1901) / 100 + (y - 1601) / 400.

Definition TimeFromYear (y : Z) : Z := msPerDay * DayFromYear y.

(** [YearFromTime(t)] is the largest [y] with [TimeFromYear(y) <= t]
    (lemma [YearFromTime_largest]); the Gregorian mean year of
    146097/400 days gives it up to one year. *)
Definition YearFromDay (d : Z) : Z :=
  let y := 1970 + (400 * d) / 146097 in
  if d <? DayFromYear y then y - 1
  else if DayFromYear (y + 1) <=? d then y + 1
  else y.

Definition YearFromTime (t : Z) : Z := YearFromDay (Day t).

Definition InLeapYear (t : Z) : Z :=
  if DaysInYear (YearFromTime t) =? 366 then 1 else 0.

Definition DayWithinYear (t : Z) : Z := Day t - DayFromYear (YearFromTime t).

Definition MonthFromTime (t : Z) : Z :=
  let d := DayWithinYear t in
  let l := InLeapYear t in
  if d <? 31 then 0
  else if d <? 59 + l then 1
  else if d <? 90 + l then 2
  else if d <? 120 + l then 3
  else if d <? 151 + l then 4
  else if d <? 181 + l then 5
  else if d <? 212 + l then 6
  else if d <? 243 + l then 7
  else if d <? 273 + l then 8
  else if d <? 304 + l then 9
  else if d <? 334 + l then 10
  else 11.

Definition DateFromTime (t : Z) : Z :=
  let d := DayWithinYear t in
  let l := InLeapYear t in
  match MonthFromTime t with
  | 0 => d + 1
  | 1 => d - 30
  | 2 => d - 58 - l
  | 3 => d - 89 - l
  | 4 => d - 119 - l
  | 5 => d - 150 - l
  | 6 => d - 180 - l
  | 7 => d - 211 - l
  | 8 => d - 242 - l
  | 9 => d - 272 - l
  | 10 => d - 303 - l
  | _ => d - 333 - l
  end.

Definition WeekDay (t : Z) : Z := (Day t + 4) mod 7.

Definition HourFromTime (t : Z) : Z := (t / msPerHour) mod 24.
Definition MinFromTime (t : Z) : Z := (t / msPerMinute) mod 60.
Definition SecFromTime (t : Z) : Z := (t / msPerSecond) mod 60.
Definition msFromTime (t : Z) : Z := t mod msPerSecond.

Definition MakeTime (hour min sec ms : Z) : Z :=
  hour * msPerHour + min * msPerMinute + sec * msPerSecond + ms.

(** Number of days from the start of a year to the start of month [mn]
    (0 to 11), in a year of [365 + l] days. *)
Definition monthStart (mn l : Z) : Z :=
  match mn with
  | 0 => 0
  | 1 => 31
  | 2 => 59 + l
  | 3 => 90 + l
  | 4 => 120 + l
  | 5 => 151 + l
  | 6 => 181 + l
  | 7 => 212 + l
  | 8 => 243 + l
  | 9 => 273 + l
  | 10 => 304 + l
  | _ => 334 + l
  end.

(** [MakeDay]: the day number of the first of month [mn] of year [ym],
    plus [date - 1]; a month outside 0..11 carries into the year. *)
Definition MakeDay (year month date : Z) : Z :=
  let ym := year + month / 12 in
  let mn := month mod 12 in
  DayFromYear ym + monthStart mn (DaysInYear ym - 365) + date - 1.

Definition MakeDate (day time : Z) : Z := day * msPerDay + time.

Definition maxTime : Z := 8640000000000000.

Definition TimeClip (t : Z) : JS.Num :=
  if Z.abs t <=? maxTime then Some t else JS.NaN.

End ES.

(** ** Date objects *)

Module DateObject.
Import JS ES.

Record Date := mkDate { getTime : Num }.

Definition InvalidDate : Date := mkDate NaN.

Definition getFullYear (d : Date) : Num := lift1 YearFromTime (getTime d).
Definition getMonth (d : Date) : Num := lift1 MonthFromTime (getTime d).
Definition getDate (d : Date) : Num := lift1 DateFromTime (getTime d).
Definition getDay (d : Date) : Num := lift1 WeekDay (getTime d).
Definition getHours (d : Date) : Num := lift1 HourFromTime (getTime d).
Definition getMinutes (d : Date) : Num := lift1 MinFromTime (getTime d).
Definition getSeconds (d : Date) : Num := lift1 SecFromTime (getTime d).

(** [new Date(value)] for a number [value]. *)
Definition new_Date_value (value : Num) : Date :=
  mkDate (match value with Some t => TimeClip t | None => NaN end).

(** [new Date(year, month, date, hours, minutes, seconds, ms)]: a year
    from 0 to 99 stands for 1900 + year. *)
Definition new_Date (year month date hours minutes seconds ms : Num) : Date :=
  match year, month, date, hours, minutes, seconds, ms with
  | Some y, Some m, Some dt, Some h, Some mi, Some s, Some milli =>
      let yr := if (0 <=? y) && (y <=? 99) then 1900 + y else y in
      mkDate (TimeClip (MakeDate (MakeDay yr m dt) (MakeTime h mi s milli)))
  | _, _, _, _, _, _, _ => InvalidDate
  end.

(** [new Date(year, month, date)] and
    [new Date(year, month, date, hours, minutes)]. *)
Definition new_Date3 (year month date : Num) : Date :=
  new_Date year month date (Some 0) (Some 0) (Some 0) (Some 0).
Definition new_Date5 (year month date hours minutes : Num) : Date :=
  new_Date year month date hours minutes (Some 0) (Some 0).

(** [d.setDate(dt)]: the object after the call. *)
Definition setDate (d : Date) (dt : Num) : Date :=
  match getTime d, dt with
  | Some t, Some n =>
      mkDate (TimeClip (MakeDate (MakeDay (YearFromTime t) (MonthFromTime t) n)
                                 (TimeWithinDay t)))
  | _, _ => InvalidDate
  end.

(** [d.setHours(h, m, s, ms)]: the object after the call. *)
Definition setHours (d : Date) (h m s ms : Num) : Date :=
  match getTime d, h, m, s, ms with
  | Some t, Some h', Some m', Some s', Some ms' =>
      mkDate (TimeClip (MakeDate (Day t) (MakeTime h' m' s' ms')))
  | _, _, _, _, _ => InvalidDate
  end.

(** Relational operators on Date objects compare the time values. *)
Definition date_lt (a b : Date) : bool := (getTime a < getTime b)%js.
Definition date_le (a b : Date) : bool := (getTime a <= getTime b)%js.
Definition date_gt (a b : Date) : bool := (getTime a > getTime b)%js.
Definition date_ge (a b : Date) : bool := (getTime a >= getTime b)%js.

(** The same day, month and year; what the components test with three
    [===] on [getDate], [getFullYear] and [getMonth]. *)
Definition sameCalendarDay (a b : Date) : bool :=
  (getDate a === getDate b)%js &&
  (getFullYear a === getFullYear b)%js &&
  (getMonth a === getMonth b)%js.

End DateObject.

(** ** The calendar table row ([ODatepickerTableRow]) *)

Module DatepickerTableRow.
Import JS ES DateObject.

(** An entry of the [events] property. *)
Record Event := mkEvent { date : Date; type : string }.

(** The [selectedDate] property, of type [Date] or [Array]. *)
Inductive SelectedDate :=
| NoSelection                      (* undefined or null *)
| SingleDate (d : Date)
| DateArray (dates : list Date).

(** The properties of the component that its methods read: [this].
    An optional property is [None] when it is not set; [dateCreator]
    stands for the date that the function of that name returns. *)
Record Props := mkProps {
  selectedDate : SelectedDate;
  hoveredDateRange : option (list Date);
  month : Z;
  minDate : option Date;
  maxDate : option Date;
  disabled : bool;
  unselectableDates : option (list Date);
  unselectableDaysOfWeek : option (list Z);
  selectableDates : option (list Date);
  events : option (list Event);
  dateCreator : Date;
  nearbyMonthDays : bool;
  nearbySelectableMonthDays : bool;
  range : bool;
  multiple : bool;
  rulesForFirstWeek : Z;
  firstDayOfWeek : Z
}.

(** What the component emits. *)
Inductive Emit :=
| emit_select (d : Date)
| emit_rangeHoverEndDate (d : Date)
| emit_change_focus (d : Date).

(** *** Week numbers *)

Definition firstWeekOffset (year : Num) (dow doy : Z) : Num :=
  let fwd := 7 + dow - doy in
  let firstJanuary := new_Date3 year (Some 0) (Some fwd) in
  let fwdlw := JS.rem (Some 7 + getDay firstJanuary - Some dow)%js (Some 7) in
  (- fwdlw + Some fwd - Some 1)%js.

Definition isLeapYear (year : Num) : bool :=
  ((JS.rem year (Some 4) === Some 0)%js &&
   (JS.rem year (Some 100) !== Some 0)%js)
  || (JS.rem year (Some 400) === Some 0)%js.

Definition daysInYear (year : Num) : Z :=
  if isLeapYear year then 366 else 365.

Definition getSetDayOfYear (input : Date) : Num :=
  let start := new_Date3 (getFullYear input) (Some 0) (Some 1) in
  (lift1 (fun n => Math_round_div n 86400000) (getTime input - getTime start)
   + Some 1)%js.

Definition weeksInYear (year : Num) (dow doy : Z) : QNum :=
  let weekOffset := firstWeekOffset year dow doy in
  let weekOffsetNext := firstWeekOffset (year + Some 1)%js dow doy in
  divq (Some (daysInYear year) - weekOffset + weekOffsetNext)%js 7.

Definition getWeekNumber (this : Props) (mom : Date) : QNum :=
  let dow := firstDayOfWeek this in
  let doy := rulesForFirstWeek this in
  let weekOffset := firstWeekOffset (getFullYear mom) dow doy in
  let week :=
    (lift1 (fun n => Math_floor_div n 7)
           (getSetDayOfYear mom - weekOffset - Some 1) + Some 1)%js in
  if (week < Some 1)%js then
    let resYear := (getFullYear mom - Some 1)%js in
    qadd (of_num week) (weeksInYear resYear dow doy)
  else if qgt (of_num week) (weeksInYear (getFullYear mom) dow doy) then
    qsub (of_num week) (weeksInYear (getFullYear mom) dow doy)
  else
    of_num week.

(** *** Selectable dates *)

(** [validity.indexOf(x)]: the first index of [x], or -1. *)
Fixpoint indexOf_from (x : bool) (l : list bool) (i : Z) : Z :=
  match l with
  | [] => -1
  | y :: l' => if Bool.eqb y x then i else indexOf_from x l' (i + 1)
  end.

Definition indexOf (x : bool) (l : list bool) : Z := indexOf_from x l 0.

(** The loop over [selectableDates]: it returns [true] from
    [selectableDate] at the first entry on the day of [day] ([inl]), and
    pushes a [false] for every entry passed before; otherwise it ends
    with the validity list grown by these ([inr]). *)
Fixpoint selectableDates_loop (day : Date) (l : list Date)
    (validity : list bool) : bool + list bool :=
  match l with
  | [] => inr validity
  | enabledDate :: rest =>
      if (getDate day === getDate enabledDate)%js &&
         (getFullYear day === getFullYear enabledDate)%js &&
         (getMonth day === getMonth enabledDate)%js
      then inl true
      else selectableDates_loop day rest (validity ++ [false])
  end.

Fixpoint unselectableDates_loop (day : Date) (l : list Date)
    (validity : list bool) : list bool :=
  match l with
  | [] => validity
  | disabledDate :: rest =>
      unselectableDates_loop day rest
        (validity ++ [(getDate day !== getDate disabledDate)%js ||
                      (getFullYear day !== getFullYear disabledDate)%js ||
                      (getMonth day !== getMonth disabledDate)%js])
  end.

Fixpoint unselectableDaysOfWeek_loop (day : Date) (l : list Z)
    (validity : list bool) : list bool :=
  match l with
  | [] => validity
  | dayOfWeek :: rest =>
      unselectableDaysOfWeek_loop day rest
        (validity ++ [(getDay day !== Some dayOfWeek)%js])
  end.

Definition selectableDate (this : Props) (day : Date) : bool :=
  let validity := [] in
  let validity :=
    match minDate this with
    | Some m => validity ++ [date_ge day m]
    | None => validity
    end in
  let validity :=
    match maxDate this with
    | Some m => validity ++ [date_le day m]
    | None => validity
    end in
  let validity :=
    if nearbyMonthDays this && negb (nearbySelectableMonthDays this)
    then validity ++ [(getMonth day === Some (month this))%js]
    else validity in
  match
    match selectableDates this with
    | Some l => selectableDates_loop day l validity
    | None => inr validity
    end
  with
  | inl b => b
  | inr validity =>
      let validity :=
        match unselectableDates this with
        | Some l => unselectableDates_loop day l validity
        | None => validity
        end in
      let validity :=
        match unselectableDaysOfWeek this with
        | Some l => unselectableDaysOfWeek_loop day l validity
        | None => validity
        end in
      indexOf false validity <? 0
  end.

Definition emitChosenDate (this : Props) (day : Date) : list Emit :=
  if disabled this then []
  else if selectableDate this day then [emit_select day]
  else [].

(** *** Events *)

(** The loop of [eventsDateMatch] over [events]. *)
Fixpoint eventsDateMatch_loop (day : Date) (l dayEvents : list Event)
    : list Event :=
  match l with
  | [] => dayEvents
  | e :: rest =>
      eventsDateMatch_loop day rest
        (if (getDay (date e) === getDay day)%js then dayEvents ++ [e]
         else dayEvents)
  end.

(** [eventsDateMatch] returns [false] ([None]) or a non-empty array. *)
Definition eventsDateMatch (this : Props) (day : Date) : option (list Event) :=
  match events this with
  | None | Some [] => None
  | Some l =>
      match eventsDateMatch_loop day l [] with
      | [] => None
      | dayEvents => Some dayEvents
      end
  end.

(** *** Cell classes *)

(** The values that [dateMatch] and [dateWithin] receive as their second
    argument. *)
Inductive Value :=
| v_undefined
| v_false
| v_date (d : Date)
| v_array (dates : list Date).

Definition of_selectedDate (s : SelectedDate) : Value :=
  match s with
  | NoSelection => v_undefined
  | SingleDate d => v_date d
  | DateArray l => v_array l
  end.

Definition of_dateRange (r : option (list Date)) : Value :=
  match r with
  | None => v_undefined
  | Some l => v_array l
  end.

(** [Array.isArray(v) && v[i]] *)
Definition isArray_and_nth (v : Value) (i : nat) : Value :=
  match v with
  | v_array l =>
      match nth_error l i with
      | Some d => v_date d
      | None => v_undefined
      end
  | _ => v_false
  end.

(** [!v]: undefined and false are falsy, objects are truthy. *)
Definition falsy (v : Value) : bool :=
  match v with
  | v_undefined | v_false => true
  | v_date _ | v_array _ => false
  end.

Definition isArray (v : Value) : bool :=
  match v with
  | v_array _ => true
  | _ => false
  end.

(** [dateOne] is a Date object, hence never falsy. *)
Definition dateMatch (dateOne : Date) (dateTwo : Value) (multiple : bool)
    : bool :=
  if falsy dateTwo || multiple then false
  else
    match dateTwo with
    | v_array l =>
        existsb (fun date =>
                   (getDate dateOne === getDate date)%js &&
                   (getFullYear dateOne === getFullYear date)%js &&
                   (getMonth dateOne === getMonth date)%js) l
    | v_date dateTwo =>
        (getDate dateOne === getDate dateTwo)%js &&
        (getFullYear dateOne === getFullYear dateTwo)%js &&
        (getMonth dateOne === getMonth dateTwo)%js
    | _ => false
    end.

(** [dateOne > dates[i]] and [dateOne < dates[i]]: [false] when the
    array has no entry [i], as [undefined] compares as [NaN]. *)
Definition dateWithin (dateOne : Date) (dates : Value) (multiple : bool)
    : bool :=
  if negb (isArray dates) || multiple then false
  else
    match dates with
    | v_array l =>
        match nth_error l 0 with
        | Some d0 => date_gt dateOne d0
        | None => false
        end &&
        match nth_error l 1 with
        | Some d1 => date_lt dateOne d1
        | None => false
        end
    | _ => false
    end.

Definition hasEvents (this : Props) : bool :=
  match events this with
  | None | Some [] => false
  | Some _ => true
  end.

(** The flags of the class objects that [cellClasses] returns, in the
    order of the array (the class names themselves are left out). *)
Record CellClasses := mkCellClasses {
  cell_selected : bool;
  cell_first_selected : bool;
  cell_within_selected : bool;
  cell_last_selected : bool;
  cell_first_hovered : bool;
  cell_within_hovered : bool;
  cell_last_hovered : bool;
  cell_today : bool;
  cell_selectable : bool;
  cell_unselectable : bool;
  cell_invisible : bool;
  cell_nearby : bool;
  cell_events : bool;
  cell_today' : bool
}.

Definition cellClasses (this : Props) (day : Date) : CellClasses :=
  let selected := of_selectedDate (selectedDate this) in
  let hovered := of_dateRange (hoveredDateRange this) in
  {| cell_selected :=
       dateMatch day selected false || dateWithin day selected (multiple this);
     cell_first_selected :=
       dateMatch day (isArray_and_nth selected 0) (multiple this);
     cell_within_selected := dateWithin day selected (multiple this);
     cell_last_selected :=
       dateMatch day (isArray_and_nth selected 1) (multiple this);
     cell_first_hovered := dateMatch day (isArray_and_nth hovered 0) false;
     cell_within_hovered := dateWithin day hovered false;
     cell_last_hovered := dateMatch day (isArray_and_nth hovered 1) false;
     cell_today := dateMatch day (v_date (dateCreator this)) false;
     cell_selectable := selectableDate this day && negb (disabled this);
     cell_unselectable := negb (selectableDate this day) || disabled this;
     cell_invisible :=
       negb (nearbyMonthDays this) && (getMonth day !== Some (month this))%js;
     cell_nearby :=
       nearbySelectableMonthDays this &&
       (getMonth day !== Some (month this))%js;
     cell_events := hasEvents this;
     cell_today' := dateMatch day (v_date (dateCreator this)) false |}.

(** *** Keyboard navigation *)

Definition setRangeHoverEndDate (this : Props) (day : Date) : list Emit :=
  if range this then [emit_rangeHoverEndDate day] else [].

(** The condition of the [while] loop of [changeFocus]. *)
Definition changeFocus_test (this : Props) (nextDay : Date) : bool :=
  match minDate this with
  | None => true
  | Some m => date_gt nextDay m
  end &&
  match maxDate this with
  | None => true
  | Some m => date_lt nextDay m
  end &&
  negb (selectableDate this nextDay).

(** The [while] loop of [changeFocus], run for at most [fuel] rounds:
    [Some] of the date that [nextDay] holds when the loop is left, [None]
    when it is still running after [fuel] rounds. *)
Fixpoint changeFocus_while (fuel : nat) (this : Props) (day : Date) (inc : Z)
    (nextDay : Date) : option Date :=
  if changeFocus_test this nextDay then
    match fuel with
    | O => None
    | S fuel' =>
        changeFocus_while fuel' this day inc
          (setDate nextDay (getDate day + Some (Math_sign inc))%js)
    end
  else Some nextDay.

Definition changeFocus (fuel : nat) (this : Props) (day : Date) (inc : Z)
    : option (list Emit) :=
  let nextDay := new_Date_value (getTime day) in
  let nextDay := setDate nextDay (getDate day + Some inc)%js in
  match changeFocus_while fuel this day inc nextDay with
  | None => None
  | Some nextDay =>
      Some (setRangeHoverEndDate this nextDay ++ [emit_change_focus nextDay])
  end.

(** [manageKeydown]: what is emitted, and whether the default action of
    the event is prevented. *)
Definition manageKeydown (fuel : nat) (this : Props) (key : string)
    (weekDay : Date) : option (list Emit * bool) :=
  let emits_of (r : option (list Emit)) :=
    match r with Some l => Some (l, true) | None => None end in
  if String.eqb key "Tab" then Some ([], false)
  else if String.eqb key " " || String.eqb key "Space"
          || String.eqb key "Spacebar" || String.eqb key "Enter"
  then Some (emitChosenDate this weekDay, true)
  else if String.eqb key "ArrowLeft" || String.eqb key "Left"
  then emits_of (changeFocus fuel this weekDay (-1))
  else if String.eqb key "ArrowRight" || String.eqb key "Right"
  then emits_of (changeFocus fuel this weekDay 1)
  else if String.eqb key "ArrowUp" || String.eqb key "Up"
  then emits_of (changeFocus fuel this weekDay (-7))
  else if String.eqb key "ArrowDown" || String.eqb key "Down"
  then emits_of (changeFocus fuel this weekDay 7)
  else Some ([], true).

End DatepickerTableRow.

(** ** The datetime picker ([ODatetimepicker]) *)

Module Datetimepicker.
Import JS ES DateObject.

(** The properties that the setter reads.  [datetimeCreator] is a
    function property: any function from dates to dates. *)
Record Props := mkProps {
  minDatetime : option Date;
  maxDatetime : option Date;
  datetimeCreator : Date -> Date
}.

(** The data of the component, [newValue] ([None] for null or
    undefined), and the payloads of the [input] events emitted so far,
    the latest last. *)
Record State := mkState {
  newValue : option Date;
  emitted_input : list (option Date)
}.

(** The first half of the setter for a value that is not null: the copy
    [val] of [value], with the time part of the current value restored
    when [value] is midnight of another day, or the date of
    [datetimeCreator] when there is no current value. *)
Definition restore_time_part (this : Props) (st : State) (value : Date)
    : Date :=
  let val := new_Date_value (getTime value) in
  match newValue st with
  | Some nv =>
      if ((getDate value !== getDate nv)%js ||
          (getMonth value !== getMonth nv)%js ||
          (getFullYear value !== getFullYear nv)%js) &&
         (getHours value === Some 0)%js &&
         (getMinutes value === Some 0)%js &&
         (getSeconds value === Some 0)%js
      then setHours val (getHours nv) (getMinutes nv) (getSeconds nv) (Some 0)
      else val
  | None => datetimeCreator this value
  end.

(** The second half, the check of the range: the [else if] on
    [maxDatetime], then the whole check. *)
Definition check_max (this : Props) (val : Date) : Date :=
  match maxDatetime this with
  | Some m => if date_gt val m then m else val
  | None => val
  end.

Definition check_range (this : Props) (val : Date) : Date :=
  match minDatetime this with
  | Some m => if date_lt val m then m else check_max this val
  | None => check_max this val
  end.

(** The setter of [computedValue]. *)
Definition computedValue_set (this : Props) (st : State) (value : option Date)
    : State :=
  let newValue' :=
    match value with
    | Some value =>
        let val := restore_time_part this st value in
        let val := check_range this val in
        Some (new_Date_value (getTime val))
    | None => None
    end in
  {| newValue := newValue';
     emitted_input := emitted_input st ++ [newValue'] |}.

Definition is_digit (c : ascii) : bool :=
  let n := N_of_ascii c in (48 <=? n)%N && (n <=? 57)%N.

(** [s.split(/\D/)]: the pieces of [s] between its characters that are
    not digits; [n] such characters give [n + 1] pieces, empty ones
    included. *)
Fixpoint split_D (s : string) : list string :=
  match s with
  | EmptyString => [EmptyString]
  | String c rest =>
      if is_digit c then
        match split_D rest with
        | tok :: toks => String c tok :: toks
        | [] => [String c EmptyString]
        end
      else EmptyString :: split_D rest
  end.

(** [parseInt(s, 10)] on a piece of [split_D], which holds digits only:
    the number they write, [NaN] when there is none. *)
Fixpoint parse_digits (s : string) (acc : Num) : Num :=
  match s with
  | EmptyString => acc
  | String c rest =>
      if is_digit c then
        let v := Z.of_N (N_of_ascii c) - 48 in
        parse_digits rest
          (Some (match acc with Some a => 10 * a + v | None => v end))
      else acc
  end.

Definition parseInt10 (s : string) : Num := parse_digits s NaN.

Definition onChangeNativePicker (this : Props) (st : State) (date : string)
    : State :=
  let s := if String.eqb date EmptyString then [] else split_D date in
  if (5 <=? List.length s)%nat then
    let year := parseInt10 (List.nth 0 s EmptyString) in
    let month := (parseInt10 (List.nth 1 s EmptyString) - Some 1)%js in
    let day := parseInt10 (List.nth 2 s EmptyString) in
    let hours := parseInt10 (List.nth 3 s EmptyString) in
    let minutes := parseInt10 (List.nth 4 s EmptyString) in
    computedValue_set this st (Some (new_Date5 year month day hours minutes))
  else
    computedValue_set this st None.

(** *** The bounds of the calendar and the native input *)

(** The part of the [datepicker] property, an object of properties for
    the inner date picker, that [minDate] and [maxDate] read. *)
Record DatepickerProps := mkDatepickerProps {
  datepicker_minDate : option Date;
  datepicker_maxDate : option Date
}.

(** The computed properties [minDate] and [maxDate], given the
    [datepicker] property ([None] when it is not set). *)
Definition minDate (this : Props) (datepicker : option DatepickerProps)
    : option Date :=
  match minDatetime this with
  | None =>
      match datepicker with
      | Some dp => datepicker_minDate dp
      | None => None
      end
  | Some m =>
      Some (new_Date (getFullYear m) (getMonth m) (getDate m)
                     (Some 0) (Some 0) (Some 0) (Some 0))
  end.

Definition maxDate (this : Props) (datepicker : option DatepickerProps)
    : option Date :=
  match maxDatetime this with
  | None =>
      match datepicker with
      | Some dp => datepicker_maxDate dp
      | None => None
      end
  | Some m =>
      Some (new_Date (getFullYear m) (getMonth m) (getDate m)
                     (Some 0) (Some 0) (Some 0) (Some 0))
  end.

(** A number put into a string: its decimal digits, with a minus sign
    when it is negative. *)
Definition number_to_string (n : Num) : string :=
  match n with
  | Some z => NilZero.string_of_int (Z.to_int z)
  | None => "NaN"
  end.

(** [(n < 10 ? '0' : '') + n] *)
Definition pad2 (n : Num) : string :=
  ((if (n < Some 10)%js then "0" else "") ++ number_to_string n)%string.

(** [formatNative(value)], for a value that is a Date or null. *)
Definition formatNative (value : option Date) : string :=
  match value with
  | None => EmptyString
  | Some value =>
      let date := new_Date_value (getTime value) in
      match getTime date with
      | None => EmptyString
      | Some _ =>
          let year := getFullYear date in
          let month := (getMonth date + Some 1)%js in
          let day := getDate date in
          let hours := getHours date in
          let minutes := getMinutes date in
          let seconds := getSeconds date in
          (number_to_string year ++ "-" ++
           pad2 month ++ "-" ++
           pad2 day ++ "T" ++
           pad2 hours ++ ":" ++
           pad2 minutes ++ ":" ++
           pad2 seconds)%string
      end
  end.

End Datetimepicker.

(** ** Vocabulary of the statements *)

Module Spec.
Import JS ES DateObject.

(** A Date object that is not the Invalid Date: its time value is a
    number, within the range that [TimeClip] leaves. *)
Definition valid_date (d : Date) : Prop :=
  exists t, getTime d = Some t /\ - maxTime <= t <= maxTime.

(** The configurations of the week numbering. *)
Definition config_ok (dow doy : Z) : Prop :=
  0 <= dow <= 6 /\ (doy = 1 \/ doy = 4).

(** The year that [new Date(Y, ...)] denotes. *)
Definition effective_year (Y : Z) : Z :=
  if (0 <=? Y) && (Y <=? 99) then 1900 + Y else Y.

(** The value of [firstWeekOffset] for a year that [new Date] takes as
    it is: [WeekDay] of the January [fwd] of the year, by day numbers. *)
Definition offset (Y dow doy : Z) : Z :=
  let fwd := 7 + dow - doy in
  - Z.rem (7 + (DayFromYear Y + fwd - 1 + 4) mod 7 - dow) 7 + fwd - 1.

(** The value of [getSetDayOfYear] at the time value [t]. *)
Definition dayOfYear (t : Z) : Z :=
  Math_round_div (t - DayFromYear (YearFromTime t) * 86400000) 86400000 + 1.

(** The proleptic Gregorian leap rule. *)
Definition gregorian_leap (Y : Z) : bool :=
  ((Y mod 4 =? 0) && negb (Y mod 100 =? 0)) || (Y mod 400 =? 0).

(** [a < b < c] as time values, none of them [NaN]. *)
Definition strictly_between (b a c : Date) : Prop :=
  exists x y z,
    getTime a = Some x /\ getTime b = Some y /\ getTime c = Some z /\ x < y < z.

(** The test of [eventsDateMatch]: the event is on the weekday of [day]. *)
Definition sameWeekday (day : Date) (e : DatepickerTableRow.Event) : bool :=
  (getDay (DatepickerTableRow.date e) === getDay day)%js.



Fixpoint all_digits (s : string) : bool :=
  match s with
  | EmptyString => true
  | String c rest => Datetimepicker.is_digit c && all_digits rest
  end.

(** The bounds of the datetime picker, when set, are valid dates, and
    the lower one is not after the upper one. *)
Definition bounds_ok (this : Datetimepicker.Props) : Prop :=
  (forall m, Datetimepicker.minDatetime this = Some m -> valid_date m) /\
  (forall m, Datetimepicker.maxDatetime this = Some m -> valid_date m) /\
  (forall m M,
      Datetimepicker.minDatetime this = Some m ->
      Datetimepicker.maxDatetime this = Some M ->
      date_le m M = true).

(** The day that [getSetDayOfYear] counts for the time value [t], local
    time being UTC: the day of the nearest midnight. *)
Definition nearestDay (t : Z) : Z := (t + 43200000) / 86400000.

(** The weeks that start on the weekday [dow], numbered through all days:
    the week of the day [a]. *)
Definition weekIndex (dow a : Z) : Z := (a + 4 - dow) / 7.

(** The week in which the first week of the year [Y] starts. *)
Definition firstWeekIndex (Y dow doy : Z) : Z :=
  weekIndex dow (DayFromYear Y + offset Y dow doy).

(** No allow-list: [selectableDates] is not set, or is empty. *)
Definition no_allow_list (this : DatepickerTableRow.Props) : Prop :=
  DatepickerTableRow.selectableDates this = None \/
  DatepickerTableRow.selectableDates this = Some [].

(** The years for which the week numbers of the code are those of the
    calendar: [new Date] takes the year, the one before and the one
    after as they are, and their Januaries are in the range of Date. *)
Definition week_year_ok (Y : Z) : Prop :=
  101 <= Y <= 275759 \/ -271819 <= Y <= -2.

(** The array of an optional array property, empty when it is not set. *)
Definition list_of {A : Type} (o : option (list A)) : list A :=
  match o with
  | Some l => l
  | None => []
  end.

(** The keys on which [manageKeydown] emits the chosen date. *)
Definition select_keys : list string :=
  [" "; "Space"; "Spacebar"; "Enter"]%string.




End Spec.

(** ** Inputs of the examples *)

Module Inputs.
Import JS ES DateObject DatepickerTableRow.

(** A day of March 2021, at midnight. *)
Definition march (d : Z) : Date := new_Date3 (Some 2021) (Some 2) (Some d).

(** ISO weeks, March displayed, nothing else set. *)
Definition props_iso : Props :=
  {| selectedDate := NoSelection; hoveredDateRange := None; month := 2;
     minDate := None; maxDate := None; disabled := false;
     unselectableDates := None; unselectableDaysOfWeek := None;
     selectableDates := None; events := None; dateCreator := march 1;
     nearbyMonthDays := false; nearbySelectableMonthDays := false;
     range := false; multiple := false;
     rulesForFirstWeek := 4; firstDayOfWeek := 1 |}.

(** Sunday 14 March is the one date allowed, and every other constraint
    excludes it: it is before [minDate], after [maxDate], a Sunday,
    listed in [unselectableDates], and not in the month displayed. *)
Definition props_allow : Props :=
  {| selectedDate := NoSelection; hoveredDateRange := None; month := 5;
     minDate := Some (march 20); maxDate := Some (march 10); disabled := false;
     unselectableDates := Some [march 14]; unselectableDaysOfWeek := Some [0];
     selectableDates := Some [march 14]; events := None; dateCreator := march 1;
     nearbyMonthDays := true; nearbySelectableMonthDays := false;
     range := false; multiple := false;
     rulesForFirstWeek := 4; firstDayOfWeek := 1 |}.

(** One allowed date and nothing else set. *)
Definition props_allow_only : Props :=
  {| selectedDate := NoSelection; hoveredDateRange := None; month := 2;
     minDate := None; maxDate := None; disabled := false;
     unselectableDates := None; unselectableDaysOfWeek := None;
     selectableDates := Some [march 14]; events := None; dateCreator := march 1;
     nearbyMonthDays := false; nearbySelectableMonthDays := false;
     range := false; multiple := false;
     rulesForFirstWeek := 4; firstDayOfWeek := 1 |}.

(** March 2021 with the 11th unselectable. *)
Definition props_skip : Props :=
  {| selectedDate := NoSelection; hoveredDateRange := None; month := 2;
     minDate := Some (march 1); maxDate := Some (march 31); disabled := false;
     unselectableDates := Some [march 11]; unselectableDaysOfWeek := None;
     selectableDates := None; events := None; dateCreator := march 1;
     nearbyMonthDays := false; nearbySelectableMonthDays := false;
     range := false; multiple := false;
     rulesForFirstWeek := 4; firstDayOfWeek := 1 |}.

(** No day of the week is selectable, and [maxDate] is 20 March. *)
Definition props_bound : Props :=
  {| selectedDate := NoSelection; hoveredDateRange := None; month := 2;
     minDate := None; maxDate := Some (march 20); disabled := false;
     unselectableDates := None;
     unselectableDaysOfWeek := Some [0; 1; 2; 3; 4; 5; 6];
     selectableDates := None; events := None; dateCreator := march 1;
     nearbyMonthDays := false; nearbySelectableMonthDays := false;
     range := false; multiple := false;
     rulesForFirstWeek := 4; firstDayOfWeek := 1 |}.

(** The days from 11 to 19 March are unselectable, and [maxDate] is
    20 March: from the 10th, no selectable day is left before the
    bound. *)
Definition props_tail : Props :=
  {| selectedDate := NoSelection; hoveredDateRange := None; month := 2;
     minDate := None; maxDate := Some (march 20); disabled := false;
     unselectableDates :=
       Some [march 11; march 12; march 13; march 14; march 15; march 16;
             march 17; march 18; march 19];
     unselectableDaysOfWeek := None;
     selectableDates := None; events := None; dateCreator := march 1;
     nearbyMonthDays := false; nearbySelectableMonthDays := false;
     range := false; multiple := false;
     rulesForFirstWeek := 4; firstDayOfWeek := 1 |}.

(** An event on Tuesday 2 March and one on Wednesday 3 March. *)
Definition event_tuesday : Event := {| date := march 2; type := "is-primary" |}.
Definition event_wednesday : Event := {| date := march 3; type := "is-info" |}.

Definition props_events : Props :=
  {| selectedDate := NoSelection; hoveredDateRange := None; month := 2;
     minDate := None; maxDate := None; disabled := false;
     unselectableDates := None; unselectableDaysOfWeek := None;
     selectableDates := None;
     events := Some [event_tuesday; event_wednesday]; dateCreator := march 1;
     nearbyMonthDays := false; nearbySelectableMonthDays := false;
     range := false; multiple := false;
     rulesForFirstWeek := 4; firstDayOfWeek := 1 |}.

(** The range from 10 to 15 March is selected. *)
Definition props_range : Props :=
  {| selectedDate := DateArray [march 10; march 15];
     hoveredDateRange := None; month := 2;
     minDate := None; maxDate := None; disabled := false;
     unselectableDates := None; unselectableDaysOfWeek := None;
     selectableDates := None; events := None; dateCreator := march 1;
     nearbyMonthDays := false; nearbySelectableMonthDays := false;
     range := true; multiple := false;
     rulesForFirstWeek := 4; firstDayOfWeek := 1 |}.

(** 15 June of the year 50, at midnight. *)
Definition june_15_of_50 : Date := mkDate (Some (-60575040000000)).

(** A datetime picker bounded by 10 March 08:00 and 20 March 18:00,
    holding 12 March 09:30. *)
Definition picker : Datetimepicker.Props :=
  {| Datetimepicker.minDatetime :=
       Some (new_Date5 (Some 2021) (Some 2) (Some 10) (Some 8) (Some 0));
     Datetimepicker.maxDatetime :=
       Some (new_Date5 (Some 2021) (Some 2) (Some 20) (Some 18) (Some 0));
     Datetimepicker.datetimeCreator := fun d => d |}.

Definition picker_state : Datetimepicker.State :=
  {| Datetimepicker.newValue :=
       Some (new_Date5 (Some 2021) (Some 2) (Some 12) (Some 9) (Some 30));
     Datetimepicker.emitted_input := [] |}.

(** Three dates selected one by one. *)
Definition props_multiple : Props :=
  {| selectedDate := DateArray [march 10; march 12; march 15];
     hoveredDateRange := None; month := 2;
     minDate := None; maxDate := None; disabled := false;
     unselectableDates := None; unselectableDaysOfWeek := None;
     selectableDates := None; events := None; dateCreator := march 1;
     nearbyMonthDays := false; nearbySelectableMonthDays := false;
     range := false; multiple := true;
     rulesForFirstWeek := 4; firstDayOfWeek := 1 |}.

(** A range of which only the start, 10 March, is chosen yet. *)
Definition props_open_range : Props :=
  {| selectedDate := DateArray [march 10];
     hoveredDateRange := None; month := 2;
     minDate := None; maxDate := None; disabled := false;
     unselectableDates := None; unselectableDaysOfWeek := None;
     selectableDates := None; events := None; dateCreator := march 1;
     nearbyMonthDays := false; nearbySelectableMonthDays := false;
     range := true; multiple := false;
     rulesForFirstWeek := 4; firstDayOfWeek := 1 |}.

(** 15 March 2021 at 12:30:45. *)
Definition march_15_12h30m45 : Date :=
  new_Date (Some 2021) (Some 2) (Some 15) (Some 12) (Some 30) (Some 45)
           (Some 0).

End Inputs.

(** * Properties *)

Import JS ES DateObject Spec Inputs.

(** [lia] after the divisions and remainders are turned into their
    equations. *)
Ltac elia := Z.to_euclidean_division_equations; lia.

(** Turn the boolean comparisons of the context into propositions. *)
Ltac bool_to_Z :=
  repeat match goal with
         | H : (_ >? _) = _ |- _ => rewrite Z.gtb_ltb in H
         | H : (_ <? _) = true |- _ => apply Z.ltb_lt in H
         | H : (_ <? _) = false |- _ => apply Z.ltb_ge in H
         | H : (_ <=? _) = true |- _ => apply Z.leb_le in H
         | H : (_ <=? _) = false |- _ => apply Z.leb_gt in H
         end.

(** ** The calendar of ECMAScript *)

Section Calendar.

Lemma DaysInYear_cases y : DaysInYear y = 365 \/ DaysInYear y = 366.
Proof.
  unfold DaysInYear.
  repeat match goal with |- context [if ?b then _ else _] => destruct b end;
    auto.
Qed.

Lemma DayFromYear_succ y : DayFromYear (y + 1) = DayFromYear y + DaysInYear y.
Proof.
  unfold DayFromYear, DaysInYear.
  repeat match goal with
         | |- context [negb (?a =? ?b)] => destruct (Z.eqb_spec a b)
         end; simpl negb; cbv iota; elia.
Qed.

Lemma DayFromYear_mono y z : y <= z -> DayFromYear y <= DayFromYear z.
Proof. unfold DayFromYear. intros H. elia. Qed.

(** The estimate of [YearFromDay] is at most one year off, and the two
    tests correct it. *)
Lemma YearFromDay_spec d :
  DayFromYear (YearFromDay d) <= d < DayFromYear (YearFromDay d + 1).
Proof.
  unfold YearFromDay.
  set (y := 1970 + 400 * d / 146097).
  assert (Hy : DayFromYear (y - 1) <= d < DayFromYear (y + 2)).
  { subst y. unfold DayFromYear. elia. }
  destruct (Z.ltb_spec d (DayFromYear y)).
  - replace (y - 1 + 1) with y by lia. lia.
  - destruct (Z.leb_spec (DayFromYear (y + 1)) d).
    + replace (y + 1 + 1) with (y + 2) by lia. lia.
    + lia.
Qed.

(** [YearFromTime] is what ECMAScript defines: the largest year that
    starts at or before [t]. *)
Lemma YearFromTime_largest t :
  TimeFromYear (YearFromTime t) <= t /\
  forall y, TimeFromYear y <= t -> y <= YearFromTime t.
Proof.
  unfold TimeFromYear, YearFromTime.
  pose proof (YearFromDay_spec (Day t)) as [Hlo Hhi].
  split.
  - revert Hlo. unfold Day, msPerDay.
    generalize (DayFromYear (YearFromDay (t / 86400000))).
    intros D HD. elia.
  - intros y Hy.
    destruct (Z.le_gt_cases y (YearFromDay (Day t))) as [|Hgt]; [assumption|].
    exfalso.
    pose proof (DayFromYear_mono (YearFromDay (Day t) + 1) y ltac:(lia)) as Hm.
    revert Hy Hhi Hm. unfold Day, msPerDay.
    generalize (DayFromYear (YearFromDay (t / 86400000) + 1)), (DayFromYear y).
    intros D1 D2 Hy Hhi Hm. elia.
Qed.

Lemma YearFromTime_upper t : t <= maxTime -> YearFromTime t <= 275760.
Proof.
  intros Ht. unfold YearFromTime.
  pose proof (YearFromDay_spec (Day t)) as [H _].
  assert (Day t <= 100000000) by (unfold Day, msPerDay, maxTime in *; elia).
  destruct (Z.le_gt_cases (YearFromDay (Day t)) 275760) as [|Hgt]; auto.
  exfalso. revert H Hgt. generalize (YearFromDay (Day t)). intros y.
  unfold DayFromYear. intros. elia.
Qed.

Lemma DayWithinYear_bounds t :
  0 <= DayWithinYear t < 365 + InLeapYear t /\
  InLeapYear t = DaysInYear (YearFromTime t) - 365.
Proof.
  unfold DayWithinYear, InLeapYear, YearFromTime.
  pose proof (YearFromDay_spec (Day t)) as H. rewrite DayFromYear_succ in H.
  destruct (DaysInYear_cases (YearFromDay (Day t))) as [E | E]; rewrite E in *;
    simpl; lia.
Qed.

Lemma MonthFromTime_bounds t : 0 <= MonthFromTime t <= 11.
Proof.
  unfold MonthFromTime.
  repeat match goal with |- context [if ?b then _ else _] => destruct b end;
    lia.
Qed.

(** [MakeDay] gives back the day of the year, month and date of a time. *)
Lemma MakeDay_of_time t :
  MakeDay (YearFromTime t) (MonthFromTime t) (DateFromTime t) = Day t.
Proof.
  pose proof (DayWithinYear_bounds t) as [Hd Hl].
  pose proof (MonthFromTime_bounds t) as Hm.
  unfold MakeDay.
  rewrite Z.div_small, Z.mod_small, Z.add_0_r, <- Hl by lia.
  assert (H : Day t = DayFromYear (YearFromTime t) + DayWithinYear t)
    by (unfold DayWithinYear; lia).
  rewrite H. clear H Hl Hm.
  assert (Hl' : InLeapYear t = 0 \/ InLeapYear t = 1)
    by (unfold InLeapYear; destruct (_ =? _); auto).
  unfold DateFromTime, MonthFromTime.
  revert Hd Hl'.
  generalize (DayWithinYear t), (InLeapYear t), (DayFromYear (YearFromTime t)).
  intros d l D0 Hd Hl'.
  repeat match goal with
         | |- context [if ?a <? ?b then _ else _] => destruct (Z.ltb_spec a b)
         end; cbv beta iota delta [monthStart]; lia.
Qed.

Lemma MakeDay_january y d : MakeDay y 0 d = DayFromYear y + d - 1.
Proof.
  unfold MakeDay. change (0 / 12) with 0. change (0 mod 12) with 0.
  simpl monthStart. rewrite !Z.add_0_r. lia.
Qed.

Lemma DayFromYear_range Y :
  -271820 <= Y <= 275760 ->
  -100000000 < DayFromYear Y /\ DayFromYear Y + 11 <= 100000000.
Proof. unfold DayFromYear. intros. elia. Qed.

Lemma TimeClip_in t : - maxTime <= t <= maxTime -> TimeClip t = Some t.
Proof.
  intros Ht. unfold TimeClip.
  now rewrite (proj2 (Z.leb_le _ _)) by (apply Z.abs_le; exact Ht).
Qed.

Lemma TimeClip_day d :
  -100000000 <= d <= 100000000 ->
  TimeClip (MakeDate d (MakeTime 0 0 0 0)) = Some (d * 86400000).
Proof.
  intros H.
  unfold MakeDate, MakeTime, msPerDay, msPerHour, msPerMinute, msPerSecond.
  replace (d * 86400000 + (0 * 3600000 + 0 * 60000 + 0 * 1000 + 0))
    with (d * 86400000) by lia.
  apply TimeClip_in. unfold maxTime. lia.
Qed.

Lemma TimeClip_day_out d :
  100000000 < d -> TimeClip (MakeDate d (MakeTime 0 0 0 0)) = NaN.
Proof.
  intros H.
  unfold TimeClip, MakeDate, MakeTime, msPerDay, msPerHour, msPerMinute,
    msPerSecond, maxTime.
  match goal with |- context [?a <=? ?b] => destruct (Z.leb_spec a b) end;
    [lia | reflexivity].
Qed.

(** Setting the date of a valid Date to the date it has changes
    nothing. *)
Lemma setDate_same t :
  - maxTime <= t <= maxTime ->
  setDate (mkDate (Some t)) (Some (DateFromTime t)) = mkDate (Some t).
Proof.
  intros Ht. unfold setDate, getTime. rewrite MakeDay_of_time.
  unfold MakeDate, Day, TimeWithinDay.
  replace (t / msPerDay * msPerDay + t mod msPerDay) with t
    by (unfold msPerDay; elia).
  now rewrite TimeClip_in.
Qed.

Lemma new_Date_value_valid d : valid_date d -> new_Date_value (getTime d) = d.
Proof.
  intros (t & Ht & Hr). destruct d as [tv]. simpl in *. subst tv.
  unfold new_Date_value. now rewrite TimeClip_in.
Qed.









(** Two times of one day have the same year, month and date. *)
Lemma same_Day_same_fields a b :
  Day a = Day b ->
  YearFromTime a = YearFromTime b /\ MonthFromTime a = MonthFromTime b /\
  DateFromTime a = DateFromTime b.
Proof.
  intros H.
  assert (EY : YearFromTime a = YearFromTime b)
    by (unfold YearFromTime; now rewrite H).
  assert (EW : DayWithinYear a = DayWithinYear b)
    by (unfold DayWithinYear; now rewrite H, EY).
  assert (EL : InLeapYear a = InLeapYear b)
    by (unfold InLeapYear; now rewrite EY).
  assert (EM : MonthFromTime a = MonthFromTime b)
    by (unfold MonthFromTime; now rewrite EW, EL).
  repeat split; auto.
  unfold DateFromTime. now rewrite EM, EW, EL.
Qed.


Lemma DateFromTime_bounds t : 1 <= DateFromTime t <= 31.
Proof.
  pose proof (DayWithinYear_bounds t) as [Hd _].
  assert (Hl : InLeapYear t = 0 \/ InLeapYear t = 1)
    by (unfold InLeapYear; destruct (_ =? _); auto).
  unfold DateFromTime, MonthFromTime. revert Hd Hl.
  generalize (DayWithinYear t), (InLeapYear t). intros d l Hd Hl.
  repeat match goal with
         | |- context [if ?a <? ?b then _ else _] => destruct (Z.ltb_spec a b)
         end; lia.
Qed.

End Calendar.

(** The model against dates whose time values are known. *)
Example date_2021_01_01 :
  new_Date3 (Some 2021) (Some 0) (Some 1) = mkDate (Some 1609459200000) /\
  getDay (new_Date3 (Some 2021) (Some 0) (Some 1)) = Some 5.
Proof. split; reflexivity. Qed.

Example date_leap_day :
  let d := new_Date3 (Some 2000) (Some 1) (Some 29) in
  getTime d = Some 951782400000 /\
  getFullYear d = Some 2000 /\ getMonth d = Some 1 /\ getDate d = Some 29 /\
  getDay d = Some 2.
Proof. vm_compute. repeat split. Qed.

Example date_two_digit_year :
  new_Date3 (Some 50) (Some 0) (Some 1)
  = new_Date3 (Some 1950) (Some 0) (Some 1).
Proof. reflexivity. Qed.

Example date_june_15_of_50 :
  getFullYear june_15_of_50 = Some 50 /\ getMonth june_15_of_50 = Some 5 /\
  getDate june_15_of_50 = Some 15.
Proof. vm_compute. repeat split. Qed.

Example date_range_ends :
  getFullYear (new_Date_value (Some maxTime)) = Some 275760 /\
  new_Date_value (Some (maxTime + 1)) = InvalidDate /\
  getFullYear (new_Date_value (Some (- maxTime))) = Some (-271821) /\
  new_Date3 (Some (-271821)) (Some 0) (Some 1) = InvalidDate.
Proof. vm_compute. repeat split. Qed.

Example setDate_next_month :
  setDate (march 31) (Some 32) = new_Date3 (Some 2021) (Some 3) (Some 1).
Proof. reflexivity. Qed.

(** ** Week numbers *)

Section WeekNumbers.
Import DatepickerTableRow.

(** JavaScript's [%] and the mathematical remainder agree on
    divisibility, also for negative years. *)
Lemma daysInYear_gregorian Y :
  daysInYear (Some Y) = (if gregorian_leap Y then 366 else 365) /\
  daysInYear (Some Y) = DaysInYear Y.
Proof.
  unfold daysInYear, isLeapYear, gregorian_leap, DaysInYear, JS.rem, JS.seq,
    JS.sneq, JS.seq, lift2, cmp2.
  assert (H4 : (Z.rem Y 4 =? 0) = (Y mod 4 =? 0)).
  { destruct (Z.eqb_spec (Z.rem Y 4) 0), (Z.eqb_spec (Y mod 4) 0); auto; elia. }
  assert (H100 : (Z.rem Y 100 =? 0) = (Y mod 100 =? 0)).
  { destruct (Z.eqb_spec (Z.rem Y 100) 0), (Z.eqb_spec (Y mod 100) 0);
      auto; elia. }
  assert (H400 : (Z.rem Y 400 =? 0) = (Y mod 400 =? 0)).
  { destruct (Z.eqb_spec (Z.rem Y 400) 0), (Z.eqb_spec (Y mod 400) 0);
      auto; elia. }
  rewrite H4, H100, H400.
  destruct (Z.eqb_spec (Y mod 4) 0), (Z.eqb_spec (Y mod 100) 0),
    (Z.eqb_spec (Y mod 400) 0); simpl; auto; elia.
Qed.

Lemma effective_year_range Y :
  -271820 <= Y <= 275760 -> -271820 <= effective_year Y <= 275760.
Proof.
  unfold effective_year.
  destruct (Z.leb_spec 0 Y), (Z.leb_spec Y 99); cbn [andb]; lia.
Qed.

Lemma effective_year_plain Y : ~ (0 <= Y <= 99) -> effective_year Y = Y.
Proof.
  intros. unfold effective_year.
  destruct (Z.leb_spec 0 Y), (Z.leb_spec Y 99); cbn [andb]; lia.
Qed.

Lemma effective_year_succ Y :
  Y <> -1 -> Y <> 99 -> effective_year (Y + 1) = effective_year Y + 1.
Proof.
  intros. unfold effective_year.
  destruct (Z.leb_spec 0 Y), (Z.leb_spec Y 99), (Z.leb_spec 0 (Y + 1)),
    (Z.leb_spec (Y + 1) 99); cbn [andb]; lia.
Qed.

Lemma DaysInYear_effective Y :
  Y <> 0 -> DaysInYear (effective_year Y) = DaysInYear Y.
Proof.
  intros. unfold effective_year.
  destruct (Z.leb_spec 0 Y), (Z.leb_spec Y 99); cbn [andb]; auto.
  unfold DaysInYear.
  repeat match goal with
         | |- context [negb (?a =? ?b)] => destruct (Z.eqb_spec a b)
         end; cbn [negb]; auto; elia.
Qed.

(** [firstWeekOffset] in the years whose January is in the range of
    Date: the offset of the year that [new Date] makes of [Y]. *)
Lemma firstWeekOffset_eq Y dow doy :
  -271820 <= Y <= 275760 -> config_ok dow doy ->
  firstWeekOffset (Some Y) dow doy = Some (offset (effective_year Y) dow doy).
Proof.
  intros Hr [Hdow Hdoy].
  unfold firstWeekOffset, new_Date3, new_Date. fold (effective_year Y).
  rewrite MakeDay_january.
  pose proof (DayFromYear_range _ (effective_year_range Y Hr)) as Hd.
  rewrite TimeClip_day by lia.
  unfold getDay, getTime, lift1, WeekDay, Day, msPerDay.
  rewrite Z.div_mul by lia.
  reflexivity.
Qed.

(** January of 275761 is after the last time value: the offset is NaN. *)
Lemma firstWeekOffset_out dow doy :
  config_ok dow doy -> firstWeekOffset (Some 275761) dow doy = NaN.
Proof.
  intros [Hdow Hdoy].
  unfold firstWeekOffset, new_Date3, new_Date.
  replace ((0 <=? 275761) && (275761 <=? 99)) with false by reflexivity.
  rewrite MakeDay_january.
  rewrite TimeClip_day_out; [reflexivity|].
  change (DayFromYear 275761) with 100000110. lia.
Qed.

Lemma offset_bounds Y dow doy :
  config_ok dow doy -> -4 <= offset Y dow doy <= 11.
Proof. intros [Hdow Hdoy]. unfold offset. elia. Qed.

(** The first weeks of two successive years start a whole number of
    weeks apart: 52 or 53. *)
Lemma weeks_numerator Y dow doy :
  config_ok dow doy ->
  let n := DaysInYear Y - offset Y dow doy + offset (Y + 1) dow doy in
  n = 364 \/ n = 371.
Proof.
  intros [Hdow Hdoy]. unfold offset. rewrite DayFromYear_succ.
  generalize (DayFromYear Y). intros D.
  cbv zeta. destruct (DaysInYear_cases Y) as [-> | ->]; elia.
Qed.

Lemma weeksInYear_eq Y dow doy :
  config_ok dow doy -> -271820 <= Y <= 275759 ->
  Y <> -1 -> Y <> 0 -> Y <> 99 ->
  weeksInYear (Some Y) dow doy = Some (inject_Z 52) \/
  weeksInYear (Some Y) dow doy = Some (inject_Z 53).
Proof.
  intros Hc Hr H1 H2 H3.
  unfold weeksInYear.
  change (Some Y + Some 1)%js with (Some (Y + 1)).
  rewrite !firstWeekOffset_eq by (auto; lia).
  rewrite (proj2 (daysInYear_gregorian Y)), effective_year_succ,
    <- (DaysInYear_effective Y) by auto.
  pose proof (weeks_numerator (effective_year Y) dow doy Hc) as Hn.
  cbv zeta in Hn. unfold JS.add, JS.sub, lift2, divq.
  destruct Hn as [-> | ->]; [left | right]; reflexivity.
Qed.

Lemma weeksInYear_out dow doy :
  config_ok dow doy -> weeksInYear (Some 275760) dow doy = None.
Proof.
  intros Hc. unfold weeksInYear.
  change (Some 275760 + Some 1)%js with (Some 275761).
  rewrite firstWeekOffset_out by auto.
  destruct (firstWeekOffset (Some 275760) dow doy); reflexivity.
Qed.

Lemma dayOfYear_bounds t : 1 <= dayOfYear t <= 367.
Proof.
  unfold dayOfYear, Math_round_div, YearFromTime.
  pose proof (YearFromDay_spec (Day t)) as H.
  rewrite DayFromYear_succ in H.
  assert (HD : DaysInYear (YearFromDay (Day t)) <= 366)
    by (destruct (DaysInYear_cases (YearFromDay (Day t))); lia).
  revert H HD.
  generalize (DayFromYear (YearFromDay (Day t))),
    (DaysInYear (YearFromDay (Day t))).
  unfold Day, msPerDay. intros D N H HD. elia.
Qed.

Lemma getSetDayOfYear_eq t :
  ~ (0 <= YearFromTime t <= 99) -> -271820 <= YearFromTime t <= 275760 ->
  getSetDayOfYear (mkDate (Some t)) = Some (dayOfYear t).
Proof.
  intros Hp Hr. unfold getSetDayOfYear, getFullYear, getTime, lift1 at 2.
  unfold new_Date3, new_Date.
  replace ((0 <=? YearFromTime t) && (YearFromTime t <=? 99)) with false
    by (symmetry; apply Bool.andb_false_iff; rewrite !Z.leb_gt; lia).
  rewrite MakeDay_january.
  pose proof (DayFromYear_range _ Hr).
  rewrite TimeClip_day by lia.
  unfold dayOfYear. simpl. do 2 f_equal. f_equal. lia.
Qed.

Lemma of_num_add a b :
  qadd (of_num (Some a)) (Some (inject_Z b)) = Some (inject_Z (a + b)).
Proof.
  unfold qadd, qlift2, of_num. f_equal.
  rewrite <- inject_Z_plus.
  apply Qred_identity. simpl. apply Z.gcd_1_r.
Qed.

Lemma of_num_sub a b :
  qsub (of_num (Some a)) (Some (inject_Z b)) = Some (inject_Z (a - b)).
Proof.
  unfold qsub, qlift2, of_num. f_equal.
  unfold Qminus. rewrite <- inject_Z_opp, <- inject_Z_plus.
  apply Qred_identity. simpl. apply Z.gcd_1_r.
Qed.

Lemma of_num_gt a b :
  qgt (of_num (Some a)) (Some (inject_Z b)) = (b <? a).
Proof.
  unfold qgt, of_num, Qle_bool. simpl. rewrite !Z.mul_1_r.
  destruct (Z.leb_spec a b), (Z.ltb_spec b a); simpl; auto; lia.
Qed.

(** C5, as the code has it.  For every year [Y] other than -1, 0 and 99
    whose January and the next one are in the range of Date, and every
    configuration with [dow] in 0..6 and [doy] 1 or 4,
    [weeksInYear(Y, dow, doy)] is 52 or 53, and [daysInYear] follows the
    proleptic Gregorian leap rule (for every [Y]).  In the three years
    left out, [new Date] reads one of [Y], [Y + 1] as a year of the
    twentieth century and the other not. *)
Theorem weeksInYear_52_or_53 (Y dow doy : Z) :
  config_ok dow doy ->
  -271820 <= Y <= 275759 ->
  Y <> -1 -> Y <> 0 -> Y <> 99 ->
  (weeksInYear (Some Y) dow doy = Some (inject_Z 52) \/
   weeksInYear (Some Y) dow doy = Some (inject_Z 53)) /\
  daysInYear (Some Y) = (if gregorian_leap Y then 366 else 365).
Proof.
  intros Hc Hr H1 H2 H3. split.
  - now apply weeksInYear_eq.
  - apply daysInYear_gregorian.
Qed.

Lemma weeksInYear_52_or_53_witness :
  (weeksInYear (Some 2020) 1 4 = Some (inject_Z 52) \/
   weeksInYear (Some 2020) 1 4 = Some (inject_Z 53)) /\
  daysInYear (Some 2020) = (if gregorian_leap 2020 then 366 else 365).
Proof.
  apply (weeksInYear_52_or_53 2020 1 4).
  - split; [lia | right; reflexivity].
  - lia.
  - lia.
  - lia.
  - lia.
Defined.

(** C5 as stated fails in the year 0: [new Date(0, 0, 4)] is in 1900 and
    [new Date(1, 0, 4)] in 1901, 365 days later, while year 0 is a leap
    year for [daysInYear]; the quotient is 365/7. *)
Lemma weeksInYear_year_0 :
  config_ok 1 4 /\
  weeksInYear (Some 0) 1 4 = Some (365 # 7) /\
  ~ (weeksInYear (Some 0) 1 4 = Some (inject_Z 52) \/
     weeksInYear (Some 0) 1 4 = Some (inject_Z 53)).
Proof.
  split; [split; [lia | right; reflexivity]|].
  assert (E : weeksInYear (Some 0) 1 4 = Some (365 # 7))
    by (vm_compute; reflexivity).
  split; [exact E|].
  rewrite E. intros [H | H]; discriminate H.
Qed.

(** C7.  With Monday as the first day of the week and the rule of the
    4th of January, the week number of 2021-01-01 is 53. *)
Theorem getWeekNumber_2021_01_01 (this : Props) :
  firstDayOfWeek this = 1 -> rulesForFirstWeek this = 4 ->
  getWeekNumber this (new_Date3 (Some 2021) (Some 0) (Some 1))
  = Some (inject_Z 53).
Proof.
  intros Hdow Hdoy. unfold getWeekNumber. rewrite Hdow, Hdoy.
  vm_compute. reflexivity.
Qed.

Lemma getWeekNumber_2021_01_01_witness :
  getWeekNumber props_iso (new_Date3 (Some 2021) (Some 0) (Some 1))
  = Some (inject_Z 53).
Proof.
  apply (getWeekNumber_2021_01_01 props_iso); reflexivity.
Defined.

(** C4, as the code has it.  For every valid date whose year is at least
    101, or from -271819 to -2, and every configuration with
    [firstDayOfWeek] in 0..6 and [rulesForFirstWeek] 1 or 4,
    [getWeekNumber] returns an integer from 1 to 53; and for every date
    its result is the same for two components that agree on these two
    properties. *)
Theorem getWeekNumber_range (this : Props) (mom : Date) (Y : Z) :
  config_ok (firstDayOfWeek this) (rulesForFirstWeek this) ->
  valid_date mom ->
  getFullYear mom = Some Y ->
  101 <= Y \/ -271819 <= Y <= -2 ->
  (exists n, 1 <= n <= 53 /\ getWeekNumber this mom = Some (inject_Z n)) /\
  (forall this',
      firstDayOfWeek this' = firstDayOfWeek this ->
      rulesForFirstWeek this' = rulesForFirstWeek this ->
      getWeekNumber this' mom = getWeekNumber this mom).
Proof.
  intros Hc (t & Et & Ht) EY HY. split.
  2: { intros this' H1 H2. unfold getWeekNumber. rewrite H1, H2. reflexivity. }
  destruct mom as [tv]. simpl in Et. subst tv.
  injection EY as EY.
  pose proof (YearFromTime_upper t (proj2 Ht)) as Hup. rewrite EY in Hup.
  unfold getWeekNumber.
  set (dow := firstDayOfWeek this) in *.
  set (doy := rulesForFirstWeek this) in *.
  change (getFullYear (mkDate (Some t))) with (Some (YearFromTime t)).
  rewrite EY.
  rewrite firstWeekOffset_eq, effective_year_plain by (auto; lia).
  rewrite getSetDayOfYear_eq by (rewrite EY; lia).
  pose proof (dayOfYear_bounds t) as Hd.
  pose proof (offset_bounds Y dow doy Hc) as Ho.
  cbn [JS.sub JS.add lift2 lift1 JS.lt cmp2]. unfold Math_floor_div.
  set (week := (dayOfYear t - offset Y dow doy - 1) / 7 + 1).
  assert (Hw : -1 <= week <= 53) by (subst week; elia).
  destruct (Z.ltb_spec week 1) as [Hlt | Hge].
  - destruct (weeksInYear_eq (Y - 1) dow doy) as [E | E];
      [auto | lia | lia | lia | lia | | ];
      rewrite E, of_num_add; eexists; (split; [| reflexivity]); lia.
  - destruct (Z.eq_dec Y 275760) as [-> | Hne].
    + rewrite weeksInYear_out by auto. cbn [qgt of_num].
      exists week. split; [lia | reflexivity].
    + destruct (weeksInYear_eq Y dow doy) as [E | E];
        [auto | lia | lia | lia | lia | | ];
        rewrite E, of_num_gt, ?of_num_sub.
      * destruct (Z.ltb_spec 52 week).
        -- exists (week - 52). split; [lia | reflexivity].
        -- exists week. split; [lia | reflexivity].
      * destruct (Z.ltb_spec 53 week).
        -- lia.
        -- exists week. split; [lia | reflexivity].
Qed.

Lemma getWeekNumber_range_witness :
  (exists n, 1 <= n <= 53 /\
             getWeekNumber props_iso (march 14) = Some (inject_Z n)) /\
  (forall this',
      firstDayOfWeek this' = firstDayOfWeek props_iso ->
      rulesForFirstWeek this' = rulesForFirstWeek props_iso ->
      getWeekNumber this' (march 14) = getWeekNumber props_iso (march 14)).
Proof.
  apply (getWeekNumber_range props_iso (march 14) 2021).
  - split; [simpl; lia | right; reflexivity].
  - exists 1615680000000. split; [reflexivity | unfold maxTime; lia].
  - reflexivity.
  - left. lia.
Defined.

(** C4 as stated fails for a date of the first century: for 15 June of
    the year 50, [new Date(50, 0, 1)] is the first of January 1950, the
    day of the year is far below zero, and the week number with it. *)
Lemma getWeekNumber_year_50 :
  valid_date june_15_of_50 /\
  getFullYear june_15_of_50 = Some 50 /\
  config_ok (firstDayOfWeek props_iso) (rulesForFirstWeek props_iso) /\
  getWeekNumber props_iso june_15_of_50 = Some (inject_Z (-99061)) /\
  ~ (exists n, 1 <= n <= 53 /\
               getWeekNumber props_iso june_15_of_50 = Some (inject_Z n)).
Proof.
  split.
  { exists (-60575040000000). split; [reflexivity | unfold maxTime; lia]. }
  split; [vm_compute; reflexivity|].
  split; [split; [simpl; lia | right; reflexivity]|].
  assert (E : getWeekNumber props_iso june_15_of_50 = Some (inject_Z (-99061)))
    by (vm_compute; reflexivity).
  split; [exact E|].
  rewrite E. intros (n & Hn & H). injection H as H. lia.
Qed.

(** The years next to the first century and the first year of the range
    of Date are left out of the statement above for a reason: on the
    first of January of the year 100, the last of December of the year
    -1 and the first of January of -271820, the result is no week
    number. *)
Example getWeekNumber_edge_years :
  getWeekNumber props_iso (mkDate (Some (-59011459200000))) = Some (365 # 7) /\
  getFullYear (mkDate (Some (-59011459200000))) = Some 100 /\
  getWeekNumber props_iso (mkDate (Some (-62167305600000))) = Some (2 # 7) /\
  getFullYear (mkDate (Some (-62167305600000))) = Some (-1) /\
  getWeekNumber props_iso (mkDate (Some (-8639977881600000))) = None /\
  getFullYear (mkDate (Some (-8639977881600000))) = Some (-271820).
Proof. vm_compute. repeat split. Qed.

(** So are the years next to the year 0 for [weeksInYear]. *)
Example weeksInYear_edge_years :
  weeksInYear (Some (-1)) 1 4 = Some (362 # 7) /\
  weeksInYear (Some 99) 1 4 = Some (365 # 7) /\
  weeksInYear (Some 1) 1 4 = Some (inject_Z 52) /\
  weeksInYear (Some 98) 1 4 = Some (inject_Z 53).
Proof. vm_compute. repeat split. Qed.

End WeekNumbers.

(** ** Selectable dates *)

Section Selectable.
Import DatepickerTableRow.

Lemma indexOf_from_In x l i : 0 <= i -> In x l -> 0 <= indexOf_from x l i.
Proof.
  revert i. induction l as [|y l IH]; intros i Hi Hin; [destruct Hin|].
  simpl. destruct (Bool.eqb y x) eqn:E; [lia|].
  destruct Hin as [-> | Hin]; [rewrite Bool.eqb_reflx in E; discriminate|].
  apply IH; [lia | auto].
Qed.

Lemma indexOf_false_In l : In false l -> (indexOf false l <? 0) = false.
Proof.
  intros H. apply Z.ltb_ge. apply indexOf_from_In; [lia | auto].
Qed.

(** The later loops only push. *)
Lemma unselectableDates_loop_incl day l validity b :
  In b validity -> In b (unselectableDates_loop day l validity).
Proof.
  revert validity. induction l as [|d l IH]; intros validity Hb; simpl; auto.
  apply IH. apply in_or_app. auto.
Qed.

Lemma unselectableDaysOfWeek_loop_incl day l validity b :
  In b validity -> In b (unselectableDaysOfWeek_loop day l validity).
Proof.
  revert validity. induction l as [|d l IH]; intros validity Hb; simpl; auto.
  apply IH. apply in_or_app. auto.
Qed.

Lemma selectableDates_loop_match day l validity :
  (exists e, In e l /\ sameCalendarDay day e = true) ->
  selectableDates_loop day l validity = inl true.
Proof.
  revert validity. induction l as [|d l IH]; intros validity (e & Hin & He).
  - destruct Hin.
  - simpl. fold (sameCalendarDay day d).
    destruct (sameCalendarDay day d) eqn:E; auto.
    destruct Hin as [-> | Hin]; [congruence|].
    apply IH. eauto.
Qed.

Lemma selectableDates_loop_nomatch day l validity :
  (forall e, In e l -> sameCalendarDay day e = false) ->
  selectableDates_loop day l validity
  = inr (validity ++ repeat false (List.length l)).
Proof.
  revert validity. induction l as [|d l IH]; intros validity H.
  - simpl. now rewrite app_nil_r.
  - simpl. fold (sameCalendarDay day d).
    rewrite (H d) by (left; auto).
    rewrite IH by (intros; apply H; right; auto).
    now rewrite <- app_assoc.
Qed.

(** C1.  With a non-empty [selectableDates], a date on the day of one of
    its entries is selectable whatever the other properties of the
    component are, and a date on the day of none of them is not
    selectable, whatever they are. *)
Theorem selectableDate_allow_list (this : Props) (l : list Date) :
  selectableDates this = Some l -> l <> [] ->
  (forall D, (exists e, In e l /\ sameCalendarDay D e = true) ->
             selectableDate this D = true) /\
  (forall D2, (forall e, In e l -> sameCalendarDay D2 e = false) ->
              selectableDate this D2 = false).
Proof.
  intros Hl Hne. split.
  - intros D HD. unfold selectableDate. rewrite Hl.
    now rewrite selectableDates_loop_match.
  - intros D2 HD. unfold selectableDate. rewrite Hl.
    rewrite selectableDates_loop_nomatch by auto.
    apply indexOf_false_In.
    assert (Hin : forall v, In false (v ++ repeat false (List.length l))).
    { intros v. apply in_or_app. right. destruct l; [congruence | left; auto]. }
    destruct (unselectableDaysOfWeek this), (unselectableDates this);
      auto using unselectableDates_loop_incl, unselectableDaysOfWeek_loop_incl.
Qed.

(** Sunday 14 March is selectable against every other constraint; Sunday
    21 March is not, although only the allow-list is set. *)
Lemma selectableDate_allow_list_witness :
  selectableDate props_allow (march 14) = true /\
  selectableDate props_allow_only (march 21) = false.
Proof.
  split.
  - apply (selectableDate_allow_list props_allow [march 14]).
    + reflexivity.
    + discriminate.
    + exists (march 14). split; [left; reflexivity | vm_compute; reflexivity].
  - apply (selectableDate_allow_list props_allow_only [march 14]).
    + reflexivity.
    + discriminate.
    + intros e [<- | []]. vm_compute. reflexivity.
Defined.

End Selectable.

(** ** Events *)

Section Events.
Import DatepickerTableRow.

Lemma eventsDateMatch_loop_filter day l acc :
  eventsDateMatch_loop day l acc = acc ++ filter (sameWeekday day) l.
Proof.
  revert acc. induction l as [|e l IH]; intros acc; simpl.
  - now rewrite app_nil_r.
  - rewrite IH. unfold sameWeekday at 2.
    destruct (getDay (date e) === getDay day)%js; auto.
    now rewrite <- app_assoc.
Qed.

(** C6.  With a non-empty [events], [eventsDateMatch(day)] returns the
    events on the weekday of [day], in their order, whatever their
    calendar date ([false] when there is none); so an event on a Tuesday
    is among the events of every Tuesday. *)
Theorem eventsDateMatch_weekday (this : Props) (l : list Event) (day : Date) :
  events this = Some l -> l <> [] ->
  eventsDateMatch this day =
    match filter (sameWeekday day) l with
    | [] => None
    | dayEvents => Some dayEvents
    end /\
  (forall e, In e l -> getDay (date e) = Some 2 -> getDay day = Some 2 ->
     exists dayEvents,
       eventsDateMatch this day = Some dayEvents /\ In e dayEvents).
Proof.
  intros Hl Hne.
  assert (E : eventsDateMatch this day =
              match filter (sameWeekday day) l with
              | [] => None
              | dayEvents => Some dayEvents
              end).
  { unfold eventsDateMatch. rewrite Hl. destruct l as [|e0 l0]; [congruence|].
    now rewrite eventsDateMatch_loop_filter. }
  split; [exact E|].
  intros e Hin He Hd. rewrite E.
  assert (Hf : In e (filter (sameWeekday day) l)).
  { apply filter_In. split; auto. unfold sameWeekday. rewrite He, Hd.
    reflexivity. }
  destruct (filter (sameWeekday day) l) as [|x xs]; [destruct Hf|].
  eexists. split; [reflexivity | exact Hf].
Qed.

(** The event of Tuesday 2 March is the event of Tuesday 9 March. *)
Lemma eventsDateMatch_weekday_witness :
  eventsDateMatch props_events (march 9) = Some [event_tuesday].
Proof.
  pose proof (eventsDateMatch_weekday props_events
                [event_tuesday; event_wednesday] (march 9) eq_refl) as H.
  destruct H as [H _]; [discriminate|].
  rewrite H. vm_compute. reflexivity.
Defined.

End Events.

(** ** Cell classes *)

Section CellClasses.
Import DatepickerTableRow.

Lemma sameCalendarDay_same_time a b t :
  getTime a = Some t -> getTime b = Some t -> sameCalendarDay a b = true.
Proof.
  intros Ha Hb. unfold sameCalendarDay, getDate, getFullYear, getMonth.
  rewrite Ha, Hb. simpl. now rewrite !Z.eqb_refl.
Qed.

Lemma within_strictly_between D a b :
  date_gt D a && date_lt D b = true <-> strictly_between D a b.
Proof.
  unfold date_gt, date_lt, strictly_between, JS.gt, JS.lt, cmp2.
  split.
  - intros H. apply andb_true_iff in H as [H1 H2].
    destruct (getTime D) as [y|]; [|discriminate].
    destruct (getTime a) as [x|]; [|discriminate].
    destruct (getTime b) as [z|]; [|discriminate].
    exists x, y, z. bool_to_Z. repeat split; auto; lia.
  - intros (x & y & z & -> & -> & -> & H).
    rewrite Z.gtb_ltb. apply andb_true_iff. split; apply Z.ltb_lt; lia.
Qed.

(** C8.  With the range [start, end] selected and [multiple] off, a
    cell is within-selected iff its date is strictly after [start] and
    strictly before [end]; it is first-selected, last-selected iff it is
    on the calendar day of [start], of [end]; the dates [start] and
    [end] themselves are first-selected and last-selected and not
    within-selected; and a cell is selected iff it is on the day of
    [start] or of [end] or is within-selected. *)
Theorem cellClasses_range (this : Props) (start end_ D : Date) :
  selectedDate this = DateArray [start; end_] -> multiple this = false ->
  let c := cellClasses this D in
  (cell_within_selected c = true <-> strictly_between D start end_) /\
  cell_first_selected c = sameCalendarDay D start /\
  cell_last_selected c = sameCalendarDay D end_ /\
  (forall t, getTime D = Some t -> getTime start = Some t ->
     cell_first_selected c = true /\ cell_within_selected c = false) /\
  (forall t, getTime D = Some t -> getTime end_ = Some t ->
     cell_last_selected c = true /\ cell_within_selected c = false) /\
  cell_selected c =
    sameCalendarDay D start || sameCalendarDay D end_
    || cell_within_selected c.
Proof.
  intros Hs Hm c. subst c. unfold cellClasses. rewrite Hs, Hm. cbn.
  fold (sameCalendarDay D start). fold (sameCalendarDay D end_).
  rewrite orb_false_r.
  split; [apply within_strictly_between|].
  split; [reflexivity|]. split; [reflexivity|].
  assert (Hn : forall t, getTime D = Some t ->
                 getTime start = Some t \/ getTime end_ = Some t ->
                 date_gt D start && date_lt D end_ = false).
  { intros t Ht Hse. apply not_true_is_false. intros Hw.
    apply within_strictly_between in Hw.
    destruct Hw as (x & y & z & Ex & Ey & Ez & Hxyz).
    destruct Hse; assert (x = y \/ y = z) by (left + right; congruence); lia. }
  split; [|split; [|reflexivity]].
  - intros t Ht Hs'. split; [eapply sameCalendarDay_same_time; eauto|].
    eapply Hn; eauto.
  - intros t Ht He'. split; [eapply sameCalendarDay_same_time; eauto|].
    eapply Hn; eauto.
Qed.

(** In the range from 10 to 15 March: the 12th is within and selected,
    the 10th is first-selected and not within. *)
Lemma cellClasses_range_witness :
  (cell_within_selected (cellClasses props_range (march 12)) = true <->
   strictly_between (march 12) (march 10) (march 15)) /\
  cell_first_selected (cellClasses props_range (march 12)) = false /\
  cell_selected (cellClasses props_range (march 12)) = true.
Proof.
  pose proof (cellClasses_range props_range (march 10) (march 15) (march 12)
                eq_refl eq_refl) as H.
  cbv zeta in H. destruct H as (H1 & H2 & _ & _ & _ & H6).
  split; [exact H1|]. split.
  - rewrite H2. vm_compute. reflexivity.
  - rewrite H6. vm_compute. reflexivity.
Defined.

End CellClasses.

(** ** Keyboard navigation *)

Section Keyboard.
Import DatepickerTableRow.

(** A round of the loop that leaves [nextDay] as it is repeats for
    ever. *)
Lemma changeFocus_while_stuck this day inc nextDay :
  changeFocus_test this nextDay = true ->
  setDate nextDay (getDate day + Some (Math_sign inc))%js = nextDay ->
  forall fuel, changeFocus_while fuel this day inc nextDay = None.
Proof.
  intros Ht Hs fuel. induction fuel as [|fuel IH]; simpl; rewrite Ht; auto.
  now rewrite Hs.
Qed.

(** The loop sets the date of [nextDay] from the date of [day], which
    does not change.  So when the first candidate is one day from [day]
    in the month of [day], and the loop is entered, every round sets the
    candidate to the date it has: [changeFocus] does not return. *)
Lemma changeFocus_stuck_in_month this day inc nextDay :
  nextDay
  = setDate (new_Date_value (getTime day)) (getDate day + Some inc)%js ->
  valid_date nextDay ->
  getDate nextDay = (getDate day + Some (Math_sign inc))%js ->
  changeFocus_test this nextDay = true ->
  forall fuel, changeFocus fuel this day inc = None.
Proof.
  intros Hn (t & Et & Ht) Hd Htest fuel.
  unfold changeFocus. rewrite <- Hn.
  rewrite changeFocus_while_stuck; auto.
  rewrite <- Hd. destruct nextDay as [tv]. simpl in Et. subst tv.
  apply setDate_same, Ht.
Qed.

(** C2, on the code.  In March 2021 with the 11th unselectable, the 12th
    selectable and both strictly within the bounds, ArrowRight on the
    10th should report the 12th.  The loop starts at the 11th and sets
    the date of the candidate to 10 + 1 in every round: whatever the
    number of rounds allowed, nothing is reported. *)
Theorem changeFocus_skip_diverges :
  selectableDate props_skip (march 11) = false /\
  selectableDate props_skip (march 12) = true /\
  date_gt (march 11) (march 1) = true /\
  date_lt (march 12) (march 31) = true /\
  forall fuel,
    changeFocus fuel props_skip (march 10) 1 = None /\
    manageKeydown fuel props_skip "ArrowRight" (march 10) = None.
Proof.
  split; [vm_compute; reflexivity|].
  split; [vm_compute; reflexivity|].
  split; [vm_compute; reflexivity|].
  split; [vm_compute; reflexivity|].
  assert (H : forall fuel, changeFocus fuel props_skip (march 10) 1 = None).
  { apply (changeFocus_stuck_in_month _ _ _ (march 11)).
    - vm_compute. reflexivity.
    - exists 1615420800000. split; [reflexivity | unfold maxTime; lia].
    - vm_compute. reflexivity.
    - vm_compute. reflexivity. }
  intros fuel. split; [apply H|].
  unfold manageKeydown. cbn [String.eqb Ascii.eqb Bool.eqb orb].
  now rewrite H.
Qed.

(** C3, on the code.  With the days from 11 to 19 March unselectable and
    [maxDate] the 20th, the cell of 10 March is selectable, so it takes
    the keys, and no selectable day is left before the bound: ArrowRight
    on the 10th should step to the bound and report it.  The candidate
    stays at the 11th, before the bound, and the loop goes on: for no
    number of rounds does [changeFocus] return, and the key handler with
    it. *)
Theorem changeFocus_bound_diverges :
  selectableDate props_tail (march 10) = true /\
  disabled props_tail = false /\
  (forall d, 11 <= d <= 19 -> selectableDate props_tail (march d) = false) /\
  maxDate props_tail = Some (march 20) /\
  (forall fuel,
     manageKeydown fuel props_tail "ArrowRight" (march 10) = None) /\
  ~ (exists fuel emits, changeFocus fuel props_tail (march 10) 1 = Some emits).
Proof.
  assert (H : forall fuel, changeFocus fuel props_tail (march 10) 1 = None).
  { apply (changeFocus_stuck_in_month _ _ _ (march 11)).
    - vm_compute. reflexivity.
    - exists 1615420800000. split; [reflexivity | unfold maxTime; lia].
    - vm_compute. reflexivity.
    - vm_compute. reflexivity. }
  split; [vm_compute; reflexivity|].
  split; [reflexivity|].
  split.
  { intros d Hd.
    assert (E : d = 11 \/ d = 12 \/ d = 13 \/ d = 14 \/ d = 15 \/ d = 16 \/
                d = 17 \/ d = 18 \/ d = 19) by lia.
    repeat destruct E as [-> | E]; try subst d; vm_compute; reflexivity. }
  split; [reflexivity|].
  split.
  - intros fuel. unfold manageKeydown.
    cbn [String.eqb Ascii.eqb Bool.eqb orb]. now rewrite H.
  - intros (fuel & emits & E). rewrite H in E. discriminate E.
Qed.

(** Where the loop is not entered, or is left, the model returns: a
    selectable next day is reported at once; and from the last day of a
    month the loop does move, from 1 February to 4 March, since
    [setDate(32)] then counts from the month of the candidate. *)
Example changeFocus_returns :
  changeFocus 0 props_skip (march 11) 1 = Some [emit_change_focus (march 12)] /\
  changeFocus 1 (mkProps NoSelection None 0 None None false
                   (Some [new_Date3 (Some 2021) (Some 1) (Some 1)]) None None
                   None (march 1) false false false false 4 1)
    (new_Date3 (Some 2021) (Some 0) (Some 31)) 1
  = Some [emit_change_focus (new_Date3 (Some 2021) (Some 2) (Some 4))].
Proof. vm_compute. split; reflexivity. Qed.

End Keyboard.

(** ** The datetime picker *)

Section Picker.
Import Datetimepicker.



Lemma parse_digits_start s :
  s <> EmptyString -> all_digits s = true ->
  parse_digits s NaN = parse_digits s (Some 0).
Proof.
  destruct s as [|c s]; [congruence|]. intros _ H. simpl in *.
  apply andb_true_iff in H as [-> _]. reflexivity.
Qed.





(** Numbers out of the ranges of the calendar are taken as [new Date]
    takes them: the year 50 is 1950, and the month 13 is January of the
    year after. *)
Example onChangeNativePicker_normalised :
  let this := mkProps None None (fun d => d) in
  newValue (onChangeNativePicker this (mkState None []) "0050-06-15T12:30")
  = Some (new_Date5 (Some 1950) (Some 5) (Some 15) (Some 12) (Some 30)) /\
  newValue (onChangeNativePicker this (mkState None []) "2021-13-01T00:00")
  = Some (new_Date3 (Some 2022) (Some 0) (Some 1)).
Proof. vm_compute. split; reflexivity. Qed.


Lemma check_range_spec (this : Props) (val : Date) :
  bounds_ok this -> valid_date val ->
  let stored := check_range this val in
  valid_date stored /\
  (forall m, minDatetime this = Some m -> date_le m stored = true) /\
  (forall M, maxDatetime this = Some M -> date_le stored M = true) /\
  (forall m, minDatetime this = Some m -> date_lt val m = true -> stored = m) /\
  (forall M, maxDatetime this = Some M -> date_gt val M = true -> stored = M) /\
  ((forall m, minDatetime this = Some m -> date_lt val m = false) ->
   (forall M, maxDatetime this = Some M -> date_gt val M = false) ->
   stored = val).
Proof.
  intros (Hmin & Hmax & Hle) Hval. unfold check_range, check_max.
  destruct Hval as (tv & Ev & Rv).
  destruct (minDatetime this) as [m|], (maxDatetime this) as [M|];
    try (destruct (Hmin m eq_refl) as (tm & Em & Rm));
    try (destruct (Hmax M eq_refl) as (tM & EM & RM));
    try (pose proof (Hle m M eq_refl eq_refl) as Hle');
    unfold date_le, date_lt, date_gt, JS.le, JS.lt, JS.gt, cmp2, valid_date in *;
    rewrite ?Em, ?EM, ?Ev in *; rewrite ?Z.gtb_ltb in *;
    repeat match goal with
           | |- context [?a <? ?b] => destruct (Z.ltb_spec a b)
           end;
    repeat match goal with
           | |- _ /\ _ => split
           | |- forall _, _ => intro
           | H : Some _ = Some _ |- _ => injection H as <-
           | H : None = Some _ |- _ => discriminate H
           | H : forall m, Some ?x = Some m -> _ |- _ => specialize (H x eq_refl)
           end;
    rewrite ?Em, ?EM, ?Ev in *;
    try (apply Z.leb_le in Hle');
    try reflexivity; try discriminate; try (apply Z.leb_le; lia); eauto.
  all: exfalso; bool_to_Z; lia.
Qed.





(** The last instant of the range of Date is a midnight: with the time
    part of the value held it is out of the range, and the Invalid Date
    is stored.  So it is when nothing is held and [datetimeCreator]
    gives the Invalid Date.  And with the bounds in the wrong order,
    20 March and 10 March, the date 15 March is below the lower one,
    which is stored, above the upper one. *)
Example computedValue_set_edges :
  newValue (computedValue_set picker picker_state
              (Some (new_Date_value (Some maxTime))))
  = Some InvalidDate /\
  newValue (computedValue_set (mkProps None None (fun _ => InvalidDate))
              (mkState None []) (Some (march 15)))
  = Some InvalidDate /\
  newValue (computedValue_set
              (mkProps (Some (march 20)) (Some (march 10)) (fun d => d))
              (mkState None []) (Some (march 15)))
  = Some (march 20).
Proof. vm_compute. repeat split. Qed.

End Picker.

(** * Further properties *)

(** Close a goal on concrete numbers by evaluation. *)
Ltac by_compute :=
  vm_compute;
  repeat match goal with
         | |- _ /\ _ => split
         | |- _ = _ => reflexivity
         | |- _ -> False => let H := fresh in intro H; discriminate H
         end.

(** ** Week numbers, week by week *)

Section Weeks.
Import DatepickerTableRow.

Lemma firstWeekIndex_exact Y dow doy :
  config_ok dow doy ->
  7 * firstWeekIndex Y dow doy = DayFromYear Y + offset Y dow doy + 4 - dow.
Proof.
  intros [Hdow Hdoy]. unfold firstWeekIndex, weekIndex, offset.
  generalize (DayFromYear Y). intros D. elia.
Qed.

Lemma firstWeekIndex_succ Y dow doy :
  config_ok dow doy ->
  7 * (firstWeekIndex (Y + 1) dow doy - firstWeekIndex Y dow doy)
  = DaysInYear Y - offset Y dow doy + offset (Y + 1) dow doy.
Proof.
  intros Hc. rewrite Z.mul_sub_distr_l, !firstWeekIndex_exact by auto.
  rewrite DayFromYear_succ. lia.
Qed.

Lemma firstWeekIndex_step Y dow doy :
  config_ok dow doy ->
  firstWeekIndex (Y + 1) dow doy = firstWeekIndex Y dow doy + 52 \/
  firstWeekIndex (Y + 1) dow doy = firstWeekIndex Y dow doy + 53.
Proof.
  intros Hc. pose proof (firstWeekIndex_succ Y dow doy Hc) as H.
  pose proof (weeks_numerator Y dow doy Hc) as Hn. cbv zeta in Hn. lia.
Qed.

Lemma firstWeekIndex_lt Y Y' dow doy :
  config_ok dow doy -> Y < Y' ->
  firstWeekIndex (Y + 1) dow doy <= firstWeekIndex Y' dow doy.
Proof.
  intros Hc H.
  replace Y' with (Y + 1 + (Y' - Y - 1)) by lia.
  assert (Hn : 0 <= Y' - Y - 1) by lia. revert Hn.
  generalize (Y' - Y - 1). apply natlike_ind.
  - rewrite Z.add_0_r. lia.
  - intros x Hx IH. replace (Y + 1 + Z.succ x) with (Y + 1 + x + 1) by lia.
    destruct (firstWeekIndex_step (Y + 1 + x) dow doy Hc); lia.
Qed.

(** A week belongs to the week year of one year only. *)
Lemma firstWeekIndex_unique Y Y' k dow doy :
  config_ok dow doy ->
  firstWeekIndex Y dow doy <= k < firstWeekIndex (Y + 1) dow doy ->
  firstWeekIndex Y' dow doy <= k < firstWeekIndex (Y' + 1) dow doy ->
  Y = Y'.
Proof.
  intros Hc H1 H2.
  destruct (Z.lt_trichotomy Y Y') as [H | [H | H]]; auto.
  - pose proof (firstWeekIndex_lt Y Y' dow doy Hc H). lia.
  - pose proof (firstWeekIndex_lt Y' Y dow doy Hc H). lia.
Qed.

Lemma weeksInYear_index Y dow doy :
  config_ok dow doy -> -271820 <= Y <= 275759 ->
  Y <> -1 -> Y <> 0 -> Y <> 99 ->
  weeksInYear (Some Y) dow doy
  = Some (inject_Z (firstWeekIndex (effective_year Y + 1) dow doy
                    - firstWeekIndex (effective_year Y) dow doy)).
Proof.
  intros Hc Hr H1 H2 H3.
  unfold weeksInYear.
  change (Some Y + Some 1)%js with (Some (Y + 1)).
  rewrite !firstWeekOffset_eq by (auto; lia).
  rewrite (proj2 (daysInYear_gregorian Y)), effective_year_succ,
    <- (DaysInYear_effective Y) by auto.
  pose proof (firstWeekIndex_succ (effective_year Y) dow doy Hc) as Hs.
  destruct (firstWeekIndex_step (effective_year Y) dow doy Hc) as [E | E];
    rewrite E in *;
    match goal with
    | |- context [firstWeekIndex ?y dow doy + ?n - firstWeekIndex ?y dow doy] =>
        replace (firstWeekIndex y dow doy + n - firstWeekIndex y dow doy)
          with n in * by lia
    end;
    unfold JS.add, JS.sub, lift2, divq; rewrite <- Hs; reflexivity.
Qed.

Lemma dayOfYear_nearestDay t :
  dayOfYear t = nearestDay t - DayFromYear (YearFromTime t) + 1.
Proof.
  unfold dayOfYear, nearestDay, Math_round_div.
  generalize (DayFromYear (YearFromTime t)). intros D. elia.
Qed.

Lemma nearestDay_bounds t :
  DayFromYear (YearFromTime t) <= nearestDay t
  <= DayFromYear (YearFromTime t + 1).
Proof.
  unfold nearestDay, YearFromTime in *.
  pose proof (YearFromDay_spec (Day t)) as H.
  revert H. generalize (DayFromYear (YearFromDay (Day t))),
    (DayFromYear (YearFromDay (Day t) + 1)).
  unfold Day, msPerDay. intros D D' H. elia.
Qed.

Lemma YearFromTime_of_day Y d :
  DayFromYear Y <= d < DayFromYear (Y + 1) -> YearFromTime (d * 86400000) = Y.
Proof.
  intros H. unfold YearFromTime, Day, msPerDay. rewrite Z.div_mul by lia.
  pose proof (YearFromDay_spec d) as Hs.
  set (y := YearFromDay d) in *.
  destruct (Z.lt_trichotomy y Y) as [Hlt | [Heq | Hgt]]; auto; exfalso.
  - pose proof (DayFromYear_mono (y + 1) Y ltac:(lia)). lia.
  - pose proof (DayFromYear_mono (Y + 1) y ltac:(lia)). lia.
Qed.

(** The week number in one formula: the weeks from the first week of
    the week year [Y'] that the week of the date belongs to. *)
Lemma getWeekNumber_index (this : Props) (t Y : Z) :
  let dow := firstDayOfWeek this in
  let doy := rulesForFirstWeek this in
  config_ok dow doy ->
  - maxTime <= t <= maxTime ->
  YearFromTime t = Y ->
  week_year_ok Y ->
  exists Y',
    firstWeekIndex Y' dow doy <= weekIndex dow (nearestDay t)
      < firstWeekIndex (Y' + 1) dow doy /\
    getWeekNumber this (mkDate (Some t))
    = Some (inject_Z (weekIndex dow (nearestDay t)
                      - firstWeekIndex Y' dow doy + 1)).
Proof.
  intros dow doy Hc Ht EY HY.
  unfold getWeekNumber. fold dow doy.
  change (getFullYear (mkDate (Some t))) with (Some (YearFromTime t)).
  rewrite EY.
  assert (Hp : ~ (0 <= Y <= 99)) by (unfold week_year_ok in HY; lia).
  rewrite firstWeekOffset_eq, effective_year_plain
    by (auto; unfold week_year_ok in HY; lia).
  rewrite getSetDayOfYear_eq by (rewrite EY; unfold week_year_ok in HY; lia).
  rewrite dayOfYear_nearestDay, EY.
  pose proof (nearestDay_bounds t) as Hb. rewrite EY in Hb.
  rewrite DayFromYear_succ in Hb.
  cbn [JS.sub JS.add lift2 lift1 JS.lt cmp2]. unfold Math_floor_div.
  set (a := nearestDay t) in *.
  pose proof (firstWeekIndex_exact Y dow doy Hc) as HB.
  pose proof (firstWeekIndex_exact (Y - 1) dow doy Hc) as HB1.
  pose proof (offset_bounds Y dow doy Hc) as Ho.
  pose proof (offset_bounds (Y - 1) dow doy Hc) as Ho1.
  pose proof (offset_bounds (Y + 1) dow doy Hc) as Ho2.
  pose proof (firstWeekIndex_succ Y dow doy Hc) as HS.
  pose proof (firstWeekIndex_succ (Y - 1) dow doy Hc) as HS1.
  replace (Y - 1 + 1) with Y in HS1 by lia.
  pose proof (DayFromYear_succ (Y - 1)) as HD1.
  replace (Y - 1 + 1) with Y in HD1 by lia.
  pose proof (DaysInYear_cases Y) as HN.
  pose proof (DaysInYear_cases (Y - 1)) as HN1.
  assert (Ew : (a - DayFromYear Y + 1 - offset Y dow doy - 1) / 7 + 1
               = weekIndex dow a - firstWeekIndex Y dow doy + 1).
  { unfold weekIndex at 1. revert HB. generalize (firstWeekIndex Y dow doy).
    intros kB HB. elia. }
  rewrite Ew.
  assert (Hk : 7 * weekIndex dow a <= a + 4 - dow < 7 * weekIndex dow a + 7)
    by (unfold weekIndex; elia).
  set (k := weekIndex dow a) in *.
  rewrite !weeksInYear_index by (auto; unfold week_year_ok in HY; lia).
  rewrite !effective_year_plain by (unfold week_year_ok in HY; lia).
  replace (Y - 1 + 1) with Y by lia.
  destruct (Z.ltb_spec (k - firstWeekIndex Y dow doy + 1) 1) as [Hlt | Hge].
  - rewrite of_num_add. exists (Y - 1). replace (Y - 1 + 1) with Y by lia.
    split; [lia|]. do 2 f_equal. lia.
  - rewrite of_num_gt.
    destruct (Z.ltb_spec
                (firstWeekIndex (Y + 1) dow doy - firstWeekIndex Y dow doy)
                (k - firstWeekIndex Y dow doy + 1)) as [Hgt | Hle].
    + rewrite of_num_sub. exists (Y + 1).
      pose proof (firstWeekIndex_step (Y + 1) dow doy Hc) as Hst.
      pose proof (firstWeekIndex_exact (Y + 1) dow doy Hc) as HB2.
      rewrite DayFromYear_succ in HB2.
      split; [lia|]. do 2 f_equal. lia.
    + exists Y. split; [lia | reflexivity].
Qed.

(** X1.  The first week of a year is the week of the January
    [7 + firstDayOfWeek - rulesForFirstWeek]: the week number of that
    date is 1 (the 4th of January for Monday and the rule 4; the 6th,
    not the 1st, for Sunday and the rule 1). *)
Theorem getWeekNumber_first_week (this : Props) (Y : Z) :
  let dow := firstDayOfWeek this in
  let doy := rulesForFirstWeek this in
  config_ok dow doy ->
  week_year_ok Y ->
  getWeekNumber this (new_Date3 (Some Y) (Some 0) (Some (7 + dow - doy)))
  = Some (inject_Z 1).
Proof.
  intros dow doy Hc HY.
  assert (Hp : ~ (0 <= Y <= 99)) by (unfold week_year_ok in HY; lia).
  assert (Hr : -271820 <= Y <= 275760) by (unfold week_year_ok in HY; lia).
  unfold new_Date3, new_Date.
  replace ((0 <=? Y) && (Y <=? 99)) with false
    by (symmetry; apply Bool.andb_false_iff; rewrite !Z.leb_gt; lia).
  rewrite MakeDay_january.
  pose proof (DayFromYear_range Y Hr) as Hd.
  pose proof Hc as [Hdow Hdoy].
  rewrite TimeClip_day by lia.
  set (t := (DayFromYear Y + (7 + dow - doy) - 1) * 86400000).
  assert (EY : YearFromTime t = Y).
  { apply YearFromTime_of_day. rewrite DayFromYear_succ.
    pose proof (DaysInYear_cases Y). lia. }
  assert (Rt : - maxTime <= t <= maxTime) by (unfold maxTime, t; lia).
  destruct (getWeekNumber_index this t Y Hc Rt EY HY) as (Y' & HY' & ->).
  fold dow doy in HY' |- *.
  assert (En : nearestDay t = DayFromYear Y + (7 + dow - doy) - 1)
    by (unfold nearestDay, t; elia).
  rewrite En in *.
  pose proof (firstWeekIndex_exact Y dow doy Hc) as HB.
  pose proof (firstWeekIndex_step Y dow doy Hc) as HS.
  assert (Ek : weekIndex dow (DayFromYear Y + (7 + dow - doy) - 1)
               = firstWeekIndex Y dow doy).
  { revert HB. unfold weekIndex at 1, offset.
    generalize (firstWeekIndex Y dow doy), (DayFromYear Y).
    intros kB D HB. elia. }
  rewrite Ek in *.
  assert (Y = Y')
    by (apply (firstWeekIndex_unique Y Y' (firstWeekIndex Y dow doy) dow doy
                 Hc); lia).
  subst Y'. do 2 f_equal. lia.
Qed.

Lemma getWeekNumber_first_week_witness :
  getWeekNumber props_iso (new_Date3 (Some 2021) (Some 0) (Some 4))
  = Some (inject_Z 1).
Proof.
  apply (getWeekNumber_first_week props_iso 2021).
  - split; [simpl; lia | right; reflexivity].
  - left. lia.
Defined.










End Weeks.

(** ** Selectable dates without an allow-list, and what they drive *)

Section SelectableMore.
Import DatepickerTableRow.

Lemma indexOf_from_all_true l i :
  0 <= i -> (indexOf_from false l i <? 0) = forallb (fun b => b) l.
Proof.
  revert i. induction l as [|b l IH]; intros i Hi; simpl; [reflexivity|].
  destruct b; simpl.
  - apply IH. lia.
  - apply Z.ltb_ge. lia.
Qed.

Lemma forallb_id_map {A : Type} (f : A -> bool) l :
  forallb (fun b => b) (map f l) = forallb f l.
Proof. induction l as [|x l IH]; simpl; [reflexivity | now rewrite IH]. Qed.

Lemma unselectableDates_loop_map day l validity :
  unselectableDates_loop day l validity
  = validity ++ map (fun d => negb (sameCalendarDay day d)) l.
Proof.
  revert validity. induction l as [|d l IH]; intros validity; simpl.
  - now rewrite app_nil_r.
  - rewrite IH, <- app_assoc. simpl. do 3 f_equal.
    unfold sameCalendarDay, JS.sneq.
    destruct (getDate day === getDate d)%js,
      (getFullYear day === getFullYear d)%js,
      (getMonth day === getMonth d)%js; reflexivity.
Qed.

Lemma unselectableDaysOfWeek_loop_map day l validity :
  unselectableDaysOfWeek_loop day l validity
  = validity ++ map (fun w => (getDay day !== Some w)%js) l.
Proof.
  revert validity. induction l as [|d l IH]; intros validity; simpl.
  - now rewrite app_nil_r.
  - now rewrite IH, <- app_assoc.
Qed.

(** X5.  Without an allow-list ([selectableDates] not set, or empty) a
    date is selectable iff it passes every check that is set: not
    before [minDate], not after [maxDate] (both bounds included), in the
    month displayed when the days of nearby months are shown but not
    selectable, on the day of no entry of [unselectableDates], and on no
    weekday of [unselectableDaysOfWeek].  With nothing set every date is
    selectable. *)
Theorem selectableDate_conjunction (this : Props) (day : Date) :
  no_allow_list this ->
  selectableDate this day =
    match minDate this with Some m => date_ge day m | None => true end &&
    match maxDate this with Some m => date_le day m | None => true end &&
    (if nearbyMonthDays this && negb (nearbySelectableMonthDays this)
     then (getMonth day === Some (month this))%js else true) &&
    forallb (fun d => negb (sameCalendarDay day d))
            (list_of (unselectableDates this)) &&
    forallb (fun w => (getDay day !== Some w)%js)
            (list_of (unselectableDaysOfWeek this)).
Proof.
  intros Hn. unfold selectableDate.
  match goal with
  | |- match (match selectableDates this with
              | Some l => selectableDates_loop day l ?v
              | None => inr ?v end) with _ => _ end = _ =>
      replace (match selectableDates this with
               | Some l => selectableDates_loop day l v
               | None => inr v end) with (@inr bool _ v)
        by (destruct Hn as [-> | ->]; reflexivity)
  end.
  unfold indexOf. rewrite indexOf_from_all_true by lia.
  destruct (unselectableDaysOfWeek this) as [ws|],
    (unselectableDates this) as [ds|];
    rewrite ?unselectableDaysOfWeek_loop_map, ?unselectableDates_loop_map;
    rewrite ?forallb_app, ?forallb_id_map; cbn [list_of forallb];
    destruct (minDate this), (maxDate this),
      (nearbyMonthDays this && negb (nearbySelectableMonthDays this));
    cbn [app forallb andb]; rewrite ?andb_true_r, ?andb_assoc; reflexivity.
Qed.

(** The bounds are included: the first and the last of March are
    selectable, the unselectable 11th is not. *)
Lemma selectableDate_conjunction_witness :
  selectableDate props_skip (march 1) = true /\
  selectableDate props_skip (march 31) = true /\
  selectableDate props_skip (march 11) = false.
Proof.
  rewrite !(selectableDate_conjunction props_skip) by (left; reflexivity).
  by_compute.
Defined.

(** X6.  A click, or Enter, on a cell emits [select] exactly when the
    cell carries the selectable class, and a cell carries the
    unselectable class exactly when it does not carry the selectable
    one; in a disabled component no cell is selectable. *)
Theorem emitChosenDate_selectable_flag (this : Props) (day : Date) :
  emitChosenDate this day
    = (if cell_selectable (cellClasses this day) then [emit_select day]
       else []) /\
  cell_unselectable (cellClasses this day)
    = negb (cell_selectable (cellClasses this day)) /\
  (disabled this = true -> cell_selectable (cellClasses this day) = false).
Proof.
  unfold emitChosenDate, cellClasses; cbn.
  destruct (disabled this), (selectableDate this day);
    repeat split; try reflexivity; discriminate.
Qed.

(** X7.  [eventsDateMatch] never returns an empty array: it returns
    [false] exactly when no event is on the weekday of the cell (so for
    every Invalid Date), while the events class of [cellClasses] is set
    on every cell as soon as there is any event. *)
Theorem eventsDateMatch_false (this : Props) (day : Date) :
  eventsDateMatch this day <> Some [] /\
  (eventsDateMatch this day = None <->
   forall e, In e (list_of (events this)) -> sameWeekday day e = false) /\
  (getTime day = NaN -> eventsDateMatch this day = None) /\
  (cell_events (cellClasses this day) = true <-> list_of (events this) <> []).
Proof.
  assert (E : eventsDateMatch this day =
              match filter (sameWeekday day) (list_of (events this)) with
              | [] => None
              | dayEvents => Some dayEvents
              end).
  { unfold eventsDateMatch.
    destruct (events this) as [[|e l]|]; try reflexivity.
    now rewrite eventsDateMatch_loop_filter. }
  assert (Hnone : eventsDateMatch this day = None <->
            forall e, In e (list_of (events this)) -> sameWeekday day e = false).
  { rewrite E. split.
    - intros H e He. destruct (sameWeekday day e) eqn:Es; [|reflexivity].
      assert (Hf : In e (filter (sameWeekday day) (list_of (events this))))
        by (apply filter_In; auto).
      destruct (filter _ _); [destruct Hf | discriminate H].
    - intros H.
      destruct (filter _ _) as [|x xs] eqn:Ef; [reflexivity|].
      assert (Hx : In x (filter (sameWeekday day) (list_of (events this))))
        by (rewrite Ef; left; reflexivity).
      apply filter_In in Hx as [Hin Hx]. rewrite (H x Hin) in Hx.
      discriminate Hx. }
  split; [|split; [exact Hnone | split]].
  - rewrite E. destruct (filter _ _); discriminate.
  - intros Hd. apply Hnone. intros e _. unfold sameWeekday, getDay.
    rewrite Hd. cbn. destruct (getTime (date e)); reflexivity.
  - unfold cellClasses, hasEvents; cbn.
    destruct (events this) as [[|e l]|]; cbn; split; congruence.
Qed.

End SelectableMore.

(** ** The classes of the selection in its other forms *)

Section CellClassesMore.
Import DatepickerTableRow.

Lemma dateMatch_multiple D v : dateMatch D v true = false.
Proof. unfold dateMatch. now rewrite orb_true_r. Qed.

Lemma dateWithin_multiple D v : dateWithin D v true = false.
Proof. unfold dateWithin. now rewrite orb_true_r. Qed.

(** X8.  With [multiple] on and an array of dates selected, a cell is
    selected iff it is on the day of one of them, and no cell is first,
    within or last: the range classes are switched off, the selected
    class is not. *)
Theorem cellClasses_multiple (this : Props) (l : list Date) (D : Date) :
  selectedDate this = DateArray l -> multiple this = true ->
  cell_selected (cellClasses this D) = existsb (sameCalendarDay D) l /\
  cell_first_selected (cellClasses this D) = false /\
  cell_within_selected (cellClasses this D) = false /\
  cell_last_selected (cellClasses this D) = false.
Proof.
  intros Hs Hm. unfold cellClasses. rewrite Hs, Hm.
  cbn [cell_selected cell_first_selected cell_within_selected
       cell_last_selected].
  rewrite !dateMatch_multiple, !dateWithin_multiple, orb_false_r.
  repeat split; reflexivity.
Qed.

Lemma cellClasses_multiple_witness :
  cell_selected (cellClasses props_multiple (march 12)) = true /\
  cell_selected (cellClasses props_multiple (march 11)) = false /\
  cell_first_selected (cellClasses props_multiple (march 10)) = false.
Proof.
  pose proof (cellClasses_multiple props_multiple
                [march 10; march 12; march 15]) as H.
  split; [|split].
  - destruct (H (march 12) eq_refl eq_refl) as (-> & _). by_compute.
  - destruct (H (march 11) eq_refl eq_refl) as (-> & _). by_compute.
  - destruct (H (march 10) eq_refl eq_refl) as (_ & -> & _). reflexivity.
Defined.

(** X9.  While a range has fewer than two dates (its end is not chosen
    yet), no cell is within or last; the cell on the day of the start,
    if there is one, is the only one that is selected, and it is
    first. *)
Theorem cellClasses_open_range (this : Props) (l : list Date) (D : Date) :
  selectedDate this = DateArray l -> (List.length l < 2)%nat ->
  multiple this = false ->
  cell_within_selected (cellClasses this D) = false /\
  cell_last_selected (cellClasses this D) = false /\
  cell_selected (cellClasses this D) = cell_first_selected (cellClasses this D) /\
  cell_first_selected (cellClasses this D) =
    match l with
    | start :: _ => sameCalendarDay D start
    | [] => false
    end.
Proof.
  intros Hs Hl Hm. unfold cellClasses. rewrite Hs, Hm.
  destruct l as [|start [|x l]]; simpl in Hl; try lia; cbn;
    rewrite ?andb_false_r, ?orb_false_r; repeat split; reflexivity.
Qed.

Lemma cellClasses_open_range_witness :
  cell_within_selected (cellClasses props_open_range (march 12)) = false /\
  cell_selected (cellClasses props_open_range (march 10)) = true.
Proof.
  pose proof (cellClasses_open_range props_open_range [march 10]) as H.
  split.
  - apply (H (march 12) eq_refl); [simpl; lia | reflexivity].
  - destruct (H (march 10) eq_refl) as (_ & _ & -> & ->);
      [simpl; lia | reflexivity | by_compute].
Defined.

End CellClassesMore.

(** ** Keyboard navigation where it returns *)

Section KeyboardMore.
Import DatepickerTableRow.


Lemma changeFocus_while_exit fuel this day inc nextDay r :
  changeFocus_while fuel this day inc nextDay = Some r ->
  changeFocus_test this r = false.
Proof.
  revert nextDay. induction fuel as [|fuel IH]; intros nextDay; simpl;
    destruct (changeFocus_test this nextDay) eqn:E; try discriminate.
  - intros H. injection H as <-. exact E.
  - apply IH.
  - intros H. injection H as <-. exact E.
Qed.

Lemma changeFocus_emits fuel this day inc emits :
  changeFocus fuel this day inc = Some emits ->
  exists nextDay,
    emits = setRangeHoverEndDate this nextDay ++ [emit_change_focus nextDay] /\
    changeFocus_test this nextDay = false.
Proof.
  unfold changeFocus.
  destruct (changeFocus_while fuel this day inc _) as [r|] eqn:E;
    [|discriminate].
  intros H. injection H as <-. exists r. split; [reflexivity|].
  eapply changeFocus_while_exit; eauto.
Qed.

Lemma changeFocus_no_select fuel this day inc emits d :
  changeFocus fuel this day inc = Some emits -> ~ In (emit_select d) emits.
Proof.
  intros E. apply changeFocus_emits in E as (nd & -> & _).
  unfold setRangeHoverEndDate.
  intros Hd. apply in_app_or in Hd as [Hd | Hd].
  - destruct (range this); [destruct Hd as [Hd | []]; discriminate Hd
                           | destruct Hd].
  - destruct Hd as [Hd | []]; discriminate Hd.
Qed.

Lemma emitChosenDate_select this day d :
  In (emit_select d) (emitChosenDate this day) ->
  d = day /\ selectableDate this day = true /\ disabled this = false.
Proof.
  unfold emitChosenDate.
  destruct (disabled this), (selectableDate this day); cbn;
    intros H; try contradiction.
  destruct H as [H | []]. injection H as <-. auto.
Qed.



(** X11.  Whenever [changeFocus] returns, it has emitted [change-focus]
    once, as the last event, after [rangeHoverEndDate] with the same
    date when [range] is on, and nothing else; and the date reported is
    selectable, or is not after [minDate], or is not before [maxDate]. *)
Theorem changeFocus_reports
    (fuel : nat) (this : Props) (day : Date) (inc : Z) (emits : list Emit) :
  changeFocus fuel this day inc = Some emits ->
  exists nextDay,
    emits = (if range this then [emit_rangeHoverEndDate nextDay] else [])
            ++ [emit_change_focus nextDay] /\
    (selectableDate this nextDay = true \/
     (exists m, minDate this = Some m /\ date_gt nextDay m = false) \/
     (exists m, maxDate this = Some m /\ date_lt nextDay m = false)).
Proof.
  intros H. apply changeFocus_emits in H as (r & -> & E).
  exists r. split; [reflexivity|].
  unfold changeFocus_test in E.
  destruct (selectableDate this r); [left; reflexivity|].
  right. rewrite andb_true_r in E. apply andb_false_iff in E as [E | E].
  - left. destruct (minDate this) as [m|]; [eauto | discriminate].
  - right. destruct (maxDate this) as [m|]; [eauto | discriminate].
Qed.

(** ArrowRight on 19 March with no day selectable: 20 March, the bound,
    is reported although it is not selectable. *)
Lemma changeFocus_reports_witness :
  exists nextDay,
    [emit_change_focus (march 20)]
    = (if range props_bound then [emit_rangeHoverEndDate nextDay] else [])
      ++ [emit_change_focus nextDay] /\
    (selectableDate props_bound nextDay = true \/
     (exists m, minDate props_bound = Some m /\ date_gt nextDay m = false) \/
     (exists m, maxDate props_bound = Some m /\ date_lt nextDay m = false)).
Proof.
  apply (changeFocus_reports 0 props_bound (march 19) 1).
  by_compute.
Defined.

(** X12.  Of the keys, only Tab keeps its default action.  The space
    keys and Enter do what a click does; no other key emits [select],
    and [select] is emitted only for the cell itself, when it is
    selectable and the component is not disabled. *)
Theorem manageKeydown_effects (fuel : nat) (this : Props) (key : string)
    (weekDay : Date) (emits : list Emit) (prevent : bool) :
  manageKeydown fuel this key weekDay = Some (emits, prevent) ->
  prevent = negb (String.eqb key "Tab") /\
  (In key select_keys -> emits = emitChosenDate this weekDay) /\
  (forall d, In (emit_select d) emits ->
     d = weekDay /\ In key select_keys /\
     selectableDate this weekDay = true /\ disabled this = false).
Proof.
  unfold manageKeydown, select_keys.
  destruct (String.eqb_spec key "Tab") as [-> | HTab].
  { intros H. injection H as <- <-. split; [reflexivity|]. split.
    - intros [H | [H | [H | [H | []]]]]; discriminate H.
    - intros d []. }
  cbn [negb].
  destruct (String.eqb_spec key " ") as [E1 | N1];
    [|destruct (String.eqb_spec key "Space") as [E2 | N2];
      [|destruct (String.eqb_spec key "Spacebar") as [E3 | N3];
        [|destruct (String.eqb_spec key "Enter") as [E4 | N4]]]];
    cbn [orb].
  1-4: intros H; injection H as <- <-; (split; [reflexivity|]);
    (split; [reflexivity|]); intros d Hd;
    apply emitChosenDate_select in Hd as (-> & Hs & Hdis);
    (split; [reflexivity|]);
    (split; [subst key; cbn; auto 10 | auto]).
  assert (Hno : ~ In key [" "; "Space"; "Spacebar"; "Enter"]%string)
    by (cbn; intuition congruence).
  assert (Hcf : forall inc,
            match changeFocus fuel this weekDay inc with
            | Some l => Some (l, true)
            | None => None
            end = Some (emits, prevent) ->
            prevent = true /\ forall d, ~ In (emit_select d) emits).
  { intros inc. destruct (changeFocus fuel this weekDay inc) as [l|] eqn:E;
      [|discriminate].
    intros H. injection H as <- <-. split; [reflexivity|].
    intros d. eapply changeFocus_no_select; eauto. }
  repeat match goal with
         | |- context [if ?a || ?b then _ else _] => destruct (a || b)
         end;
    intros H; try (apply Hcf in H as [-> Hd]);
    try (injection H as <- <-);
    (split; [reflexivity|]); (split; [intros Hk; contradiction|]);
    intros d Hd'; exfalso; try (apply (Hd d Hd')); try destruct Hd'.
Qed.

(** Enter on 10 March selects it. *)
Lemma manageKeydown_effects_witness :
  [emit_select (march 10)] = emitChosenDate props_iso (march 10) /\
  true = negb (String.eqb "Enter" "Tab").
Proof.
  destruct (manageKeydown_effects 0 props_iso "Enter" (march 10)
              [emit_select (march 10)] true) as (Hp & He & _).
  - by_compute.
  - split; [apply He; cbn; auto 10 | exact Hp].
Defined.

End KeyboardMore.

(** ** The datetime picker: time part, bounds of the calendar, native input *)

Section PickerMore.
Import Datetimepicker.

(** X13.  The picker holds a value, and a date is assigned.  When the
    value held is a valid date and the date assigned is at midnight
    (hours, minutes and seconds 0) of another calendar day, as a click in
    the calendar gives it, the date to commit is the one that [new Date]
    builds from the year, month and date of the date assigned and the
    hours, minutes and seconds of the value held, without milliseconds.
    A date of the calendar day of the value held, or not at midnight, is
    taken as it is.  When the value held is the Invalid Date, a date at
    midnight becomes the Invalid Date. *)
Theorem restore_time_part_keeps_time (this : Props) (st : State)
    (value nv : Date) (Y M D : Z) :
  newValue st = Some nv ->
  valid_date value ->
  getFullYear value = Some Y -> getMonth value = Some M ->
  getDate value = Some D -> ~ (0 <= Y <= 99) ->
  let midnight :=
    getHours value = Some 0 /\ getMinutes value = Some 0 /\
    getSeconds value = Some 0 in
  (valid_date nv -> sameCalendarDay value nv = false -> midnight ->
     restore_time_part this st value
     = new_Date (Some Y) (Some M) (Some D)
                (getHours nv) (getMinutes nv) (getSeconds nv) (Some 0)) /\
  (sameCalendarDay value nv = true \/ ~ midnight ->
     restore_time_part this st value = value) /\
  (getTime nv = NaN -> midnight ->
     restore_time_part this st value = InvalidDate).
Proof.
  intros Hnv Hv EY EM ED Hp midnight. subst midnight.
  unfold restore_time_part. rewrite Hnv.
  rewrite (new_Date_value_valid _ Hv).
  assert (Ec : (getDate value !== getDate nv)%js
               || (getMonth value !== getMonth nv)%js
               || (getFullYear value !== getFullYear nv)%js
               = negb (sameCalendarDay value nv)).
  { unfold sameCalendarDay, JS.sneq.
    destruct (getDate value === getDate nv)%js,
      (getFullYear value === getFullYear nv)%js,
      (getMonth value === getMonth nv)%js; reflexivity. }
  rewrite Ec. clear Ec.
  destruct Hv as (tv & Ev & Rv).
  split; [|split].
  - intros (tn & En & Rn) Hd (Hh & Hmi & Hs). rewrite Hd, Hh, Hmi, Hs.
    cbn [negb andb JS.seq cmp2 Z.eqb].
    unfold setHours, new_Date, getHours, getMinutes, getSeconds.
    rewrite Ev, En. cbn [lift1].
    replace ((0 <=? Y) && (Y <=? 99)) with false
      by (symmetry; apply andb_false_iff; rewrite !Z.leb_gt; lia).
    unfold getFullYear, getMonth, getDate in EY, EM, ED.
    rewrite Ev in EY, EM, ED. cbn [lift1] in EY, EM, ED.
    injection EY as <-. injection EM as <-. injection ED as <-.
    now rewrite MakeDay_of_time.
  - intros [Hd | Hm].
    + rewrite Hd. reflexivity.
    + destruct (getHours value === Some 0)%js eqn:Eh;
        [|now rewrite andb_false_r].
      destruct (getMinutes value === Some 0)%js eqn:Emi;
        [|now rewrite andb_false_r].
      destruct (getSeconds value === Some 0)%js eqn:Es;
        [|now rewrite andb_false_r].
      exfalso. apply Hm.
      unfold getHours, getMinutes, getSeconds in *. rewrite Ev in *.
      cbn [lift1 JS.seq cmp2] in *.
      apply Z.eqb_eq in Eh, Emi, Es. now rewrite Eh, Emi, Es.
  - intros En (Hh & Hmi & Hs).
    assert (Hd : sameCalendarDay value nv = false).
    { unfold sameCalendarDay, getDate. rewrite Ev, En. reflexivity. }
    rewrite Hd, Hh, Hmi, Hs. cbn [negb andb JS.seq cmp2 Z.eqb].
    unfold setHours, getHours. rewrite Ev, En. reflexivity.
Qed.

(** The picker holds 12 March 09:30; 25 March is clicked in the
    calendar: 25 March 09:30 is to be committed. *)
Lemma restore_time_part_keeps_time_witness :
  restore_time_part picker picker_state (march 25)
  = new_Date5 (Some 2021) (Some 2) (Some 25) (Some 9) (Some 30).
Proof.
  destruct (restore_time_part_keeps_time picker picker_state (march 25)
              (new_Date5 (Some 2021) (Some 2) (Some 12) (Some 9) (Some 30))
              2021 2 25) as [H _].
  - reflexivity.
  - exists 1616630400000. split; [reflexivity | unfold maxTime; lia].
  - reflexivity.
  - reflexivity.
  - reflexivity.
  - lia.
  - rewrite H.
    + reflexivity.
    + exists 1615541400000. split; [reflexivity | unfold maxTime; lia].
    + reflexivity.
    + repeat split.
Defined.

(** X14.  Assigning the value that the setter has just stored stores it
    again: the committed value is a fixed point of the setter. *)
Theorem computedValue_set_idempotent
    (this : Props) (st : State) (value : Date) :
  bounds_ok this ->
  valid_date (restore_time_part this st value) ->
  exists stored,
    newValue (computedValue_set this st (Some value)) = Some stored /\
    newValue (computedValue_set this (computedValue_set this st (Some value))
                                (Some stored))
    = Some stored.
Proof.
  intros Hb Hv.
  destruct (check_range_spec this _ Hb Hv)
    as (Hvalid & Hmin & Hmax & _).
  set (stored := check_range this (restore_time_part this st value)) in *.
  assert (E1 : newValue (computedValue_set this st (Some value)) = Some stored).
  { unfold computedValue_set. cbn [newValue]. fold stored.
    now rewrite (new_Date_value_valid _ Hvalid). }
  exists stored. split; [exact E1|].
  set (st' := computedValue_set this st (Some value)) in *.
  unfold computedValue_set at 1. cbn [newValue].
  assert (Er : restore_time_part this st' stored = stored).
  { unfold restore_time_part. rewrite E1.
    destruct Hvalid as (t & Et & Rt).
    pose proof (sameCalendarDay_same_time stored stored t Et Et) as Hs.
    unfold sameCalendarDay in Hs.
    apply andb_true_iff in Hs as [Hs H3]. apply andb_true_iff in Hs as [H1 H2].
    unfold JS.sneq. rewrite H1, H2, H3. cbn [negb orb andb].
    apply new_Date_value_valid. exists t. auto. }
  rewrite Er.
  assert (Ec : check_range this stored = stored).
  { destruct (check_range_spec this stored Hb Hvalid)
      as (_ & _ & _ & _ & _ & Hsame).
    apply Hsame.
    - intros m Hm. specialize (Hmin m Hm).
      destruct Hvalid as (t & Et & _).
      unfold date_lt, date_le, JS.lt, JS.le, cmp2 in *. rewrite Et in *.
      destruct (getTime m); [|reflexivity]. bool_to_Z. apply Z.ltb_ge. lia.
    - intros M HM. specialize (Hmax M HM).
      destruct Hvalid as (t & Et & _).
      unfold date_gt, date_le, JS.gt, JS.le, cmp2 in *. rewrite Et in *.
      destruct (getTime M); [|discriminate]. bool_to_Z.
      rewrite Z.gtb_ltb. apply Z.ltb_ge. lia. }
  rewrite Ec. f_equal. apply new_Date_value_valid, Hvalid.
Qed.

Lemma picker_bounds_ok : bounds_ok picker.
Proof.
  split; [|split].
  - intros m H. injection H as <-.
    exists 1615363200000. split; [reflexivity | unfold maxTime; lia].
  - intros m H. injection H as <-.
    exists 1616263200000. split; [reflexivity | unfold maxTime; lia].
  - intros m M Hm HM. injection Hm as <-. injection HM as <-.
    vm_compute. reflexivity.
Defined.

Lemma computedValue_set_idempotent_witness :
  exists stored,
    newValue (computedValue_set picker picker_state (Some (march 25)))
    = Some stored /\
    newValue (computedValue_set picker
                (computedValue_set picker picker_state (Some (march 25)))
                (Some stored))
    = Some stored.
Proof.
  apply (computedValue_set_idempotent picker picker_state (march 25)).
  - exact picker_bounds_ok.
  - exists 1616664600000.
    split; [vm_compute; reflexivity | unfold maxTime; lia].
Defined.




(** Decimal digits, written and read. *)
Lemma all_digits_uint u : all_digits (NilEmpty.string_of_uint u) = true.
Proof. induction u; simpl; auto. Qed.

Lemma parse_digits_step c s a :
  is_digit c = true ->
  parse_digits (String c s) (Some a)
  = parse_digits s (Some (10 * a + (Z.of_N (N_of_ascii c) - 48))).
Proof. intros H. cbn [parse_digits]. now rewrite H. Qed.

Ltac digit_step :=
  cbn [NilEmpty.string_of_uint Pos.of_uint_acc Pos.of_uint];
  rewrite parse_digits_step by reflexivity;
  match goal with
  | |- context [Z.of_N (N_of_ascii ?c) - 48] =>
      let v := eval vm_compute in (Z.of_N (N_of_ascii c) - 48) in
      change (Z.of_N (N_of_ascii c) - 48) with v
  end.

Lemma parse_digits_acc u acc :
  parse_digits (NilEmpty.string_of_uint u) (Some (Z.pos acc))
  = Some (Z.pos (Pos.of_uint_acc u acc)).
Proof.
  revert acc. induction u; intros acc; [reflexivity | digit_step ..];
    rewrite <- IHu; do 2 f_equal; lia.
Qed.

Lemma parse_digits_uint u :
  parse_digits (NilEmpty.string_of_uint u) (Some 0)
  = Some (Z.of_N (Pos.of_uint u)).
Proof.
  induction u; [reflexivity | digit_step ..];
    [exact IHu | apply parse_digits_acc ..].
Qed.

(** The string of a number that is not negative holds digits only, and
    [parseInt] reads the number back. *)
Lemma number_to_string_nonneg z :
  0 <= z ->
  all_digits (number_to_string (Some z)) = true /\
  number_to_string (Some z) <> EmptyString /\
  parseInt10 (number_to_string (Some z)) = Some z.
Proof.
  intros Hz. unfold number_to_string, parseInt10.
  destruct z as [|p|p]; [cbn; repeat split; congruence | | lia].
  cbn [Z.to_int NilZero.string_of_int].
  pose proof (Unsigned.to_uint_nonnil p) as Hn.
  assert (E : NilZero.string_of_uint (Pos.to_uint p)
              = NilEmpty.string_of_uint (Pos.to_uint p))
    by (destruct (Pos.to_uint p); [congruence | reflexivity ..]).
  rewrite E.
  assert (Hne : NilEmpty.string_of_uint (Pos.to_uint p) <> EmptyString)
    by (destruct (Pos.to_uint p); [congruence | discriminate ..]).
  split; [apply all_digits_uint|]. split; [exact Hne|].
  rewrite parse_digits_start by (auto using all_digits_uint).
  rewrite parse_digits_uint, Unsigned.of_to. reflexivity.
Qed.

Lemma pad2_nonneg z :
  0 <= z ->
  all_digits (pad2 (Some z)) = true /\ parseInt10 (pad2 (Some z)) = Some z.
Proof.
  intros Hz. destruct (number_to_string_nonneg z Hz) as (Hd & Hne & Hp).
  unfold pad2. cbn [JS.lt cmp2].
  destruct (z <? 10); cbn [append].
  - split; [simpl; exact Hd|].
    unfold parseInt10 in *. cbn [parse_digits].
    change (is_digit "0") with true. cbv iota.
    change (Z.of_N (N_of_ascii "0") - 48) with 0.
    rewrite <- parse_digits_start by auto. exact Hp.
  - split; assumption.
Qed.

Lemma split_D_sep d c rest :
  all_digits d = true -> is_digit c = false ->
  split_D (d ++ String c rest) = d :: split_D rest.
Proof.
  intros Hd Hc. induction d as [|a d IH]; simpl in *.
  - now rewrite Hc.
  - apply andb_true_iff in Hd as [Ha Hd]. rewrite Ha, (IH Hd). reflexivity.
Qed.

Lemma split_D_all_digits d : all_digits d = true -> split_D d = [d].
Proof.
  induction d as [|a d IH]; simpl; [reflexivity|].
  intros H. apply andb_true_iff in H as [Ha Hd]. now rewrite Ha, (IH Hd).
Qed.

(** What [formatNative] writes for a valid date from the year 100 on,
    [onChangeNativePicker] reads as the numbers it was written from. *)
Lemma onChangeNativePicker_formatNative
    (this : Props) (st : State) (value : Date) (t : Z) :
  getTime value = Some t ->
  - maxTime <= t <= maxTime ->
  100 <= YearFromTime t ->
  onChangeNativePicker this st (formatNative (Some value))
  = computedValue_set this st
      (Some (new_Date5 (getFullYear value) (getMonth value) (getDate value)
                       (getHours value) (getMinutes value))).
Proof.
  intros E Ht HY. destruct value as [tv]. simpl in E. subst tv.
  unfold formatNative. cbn [getTime]. unfold new_Date_value.
  rewrite TimeClip_in by exact Ht. cbn [getTime].
  unfold getFullYear, getMonth, getDate, getHours, getMinutes, getSeconds.
  cbn [getTime lift1 JS.add lift2].
  pose proof (MonthFromTime_bounds t) as HM.
  pose proof (DateFromTime_bounds t) as HD.
  assert (Hh : 0 <= HourFromTime t) by (unfold HourFromTime; elia).
  assert (Hmi : 0 <= MinFromTime t) by (unfold MinFromTime; elia).
  assert (Hs : 0 <= SecFromTime t) by (unfold SecFromTime; elia).
  destruct (number_to_string_nonneg (YearFromTime t) ltac:(lia))
    as (Yd & Yne & Yp).
  destruct (pad2_nonneg (MonthFromTime t + 1) ltac:(lia)) as (Md & Mp).
  destruct (pad2_nonneg (DateFromTime t) ltac:(lia)) as (Dd & Dp).
  destruct (pad2_nonneg (HourFromTime t) Hh) as (hd & hp).
  destruct (pad2_nonneg (MinFromTime t) Hmi) as (md & mp).
  destruct (pad2_nonneg (SecFromTime t) Hs) as (sd & sp).
  set (Ys := number_to_string (Some (YearFromTime t))) in *.
  set (Ms := pad2 (Some (MonthFromTime t + 1))) in *.
  set (Ds := pad2 (Some (DateFromTime t))) in *.
  set (hs := pad2 (Some (HourFromTime t))) in *.
  set (ms := pad2 (Some (MinFromTime t))) in *.
  set (ss := pad2 (Some (SecFromTime t))) in *.
  match goal with
  | |- onChangeNativePicker _ _ ?f = _ =>
      change f with
        (Ys ++ String "-" (Ms ++ String "-" (Ds ++ String "T"
           (hs ++ String ":" (ms ++ String ":" ss)))))%string
  end.
  unfold onChangeNativePicker.
  replace (String.eqb (Ys ++ _) "") with false
    by (destruct Ys; [congruence | reflexivity]).
  rewrite !split_D_sep by (auto; reflexivity).
  rewrite split_D_all_digits by auto.
  cbn [List.length Nat.leb List.nth].
  rewrite Yp, Mp, Dp, hp, mp.
  cbn [JS.sub lift2].
  replace (MonthFromTime t + 1 - 1) with (MonthFromTime t) by lia.
  reflexivity.
Qed.

(** X16.  What [formatNative] writes for a valid date from the year 100
    on, [onChangeNativePicker] reads back, and hands the setter the date
    that [new Date] builds from the year, month, date, hours and minutes
    of the date written: a valid date with the same year, month, date,
    hours and minutes, and no seconds. *)
Theorem formatNative_round_trip
    (this : Props) (st : State) (value : Date) (Y : Z) :
  valid_date value -> getFullYear value = Some Y -> 100 <= Y ->
  let read :=
    new_Date5 (getFullYear value) (getMonth value) (getDate value)
              (getHours value) (getMinutes value) in
  onChangeNativePicker this st (formatNative (Some value))
  = computedValue_set this st (Some read) /\
  valid_date read /\
  getFullYear read = getFullYear value /\ getMonth read = getMonth value /\
  getDate read = getDate value /\ getHours read = getHours value /\
  getMinutes read = getMinutes value /\ getSeconds read = Some 0.
Proof.
  intros (t & E & Ht) EY HY read.
  destruct value as [tv]. simpl in E. subst tv.
  unfold getFullYear in EY. cbn [getTime lift1] in EY. injection EY as EY.
  split.
  { apply (onChangeNativePicker_formatNative this st (mkDate (Some t)) t);
      [reflexivity | exact Ht | lia]. }
  assert (Er : read = mkDate (Some (t - t mod 60000))).
  { subst read.
    unfold getFullYear, getMonth, getDate, getHours, getMinutes.
    cbn [getTime lift1]. unfold new_Date5, new_Date.
    replace ((0 <=? YearFromTime t) && (YearFromTime t <=? 99)) with false
      by (symmetry; apply andb_false_iff; right; apply Z.leb_gt; lia).
    rewrite MakeDay_of_time.
    assert (Et : MakeDate (Day t)
                   (MakeTime (HourFromTime t) (MinFromTime t) 0 0)
                 = t - t mod 60000).
    { unfold MakeDate, MakeTime, Day, HourFromTime, MinFromTime, msPerDay,
        msPerHour, msPerMinute, msPerSecond. elia. }
    rewrite Et, TimeClip_in; [reflexivity|].
    unfold maxTime in *. elia. }
  rewrite Er. clear Er read.
  split.
  { exists (t - t mod 60000). split; [reflexivity|]. unfold maxTime in *. elia. }
  assert (Ed : Day (t - t mod 60000) = Day t)
    by (unfold Day, msPerDay; elia).
  destruct (same_Day_same_fields _ _ Ed) as (E1 & E2 & E3).
  unfold getFullYear, getMonth, getDate, getHours, getMinutes, getSeconds.
  cbn [getTime lift1]. rewrite E1, E2, E3.
  repeat split; f_equal;
    unfold HourFromTime, MinFromTime, SecFromTime, msPerHour, msPerMinute,
      msPerSecond; elia.
Qed.

(** 15 March 2021, 12:30:45, is written 2021-03-15T12:30:45 and comes
    back as 12:30:00. *)
Lemma formatNative_round_trip_witness :
  formatNative (Some march_15_12h30m45) = "2021-03-15T12:30:45"%string /\
  onChangeNativePicker picker picker_state
    (formatNative (Some march_15_12h30m45))
  = computedValue_set picker picker_state
      (Some (new_Date5 (Some 2021) (Some 2) (Some 15) (Some 12) (Some 30))).
Proof.
  split; [reflexivity|].
  apply (formatNative_round_trip picker picker_state march_15_12h30m45 2021).
  - exists 1615811445000. split; [reflexivity | unfold maxTime; lia].
  - reflexivity.
  - lia.
Defined.

(** X17.  [formatNative] gives the empty string exactly for null and for
    a Date that is not valid, and the empty string is read as null: an
    Invalid Date shown in the native input comes back as no
    selection. *)
Theorem formatNative_empty
    (this : Props) (st : State) (value : option Date) :
  (formatNative value = EmptyString <->
   match value with
   | None => True
   | Some d => ~ valid_date d
   end) /\
  (formatNative value = EmptyString ->
   newValue (onChangeNativePicker this st (formatNative value)) = None).
Proof.
  split; [|intros ->; reflexivity].
  destruct value as [[tv]|]; [|split; auto].
  unfold formatNative. cbn [getTime]. unfold new_Date_value.
  destruct tv as [t|]; cbn [getTime].
  - unfold TimeClip. destruct (Z.leb_spec (Z.abs t) maxTime) as [H | H];
      cbn [getTime].
    + split.
      * intros Hf. exfalso.
        unfold getFullYear in Hf. cbn [getTime lift1] in Hf.
        destruct (number_to_string (Some (YearFromTime t))) eqn:En;
          [|discriminate Hf].
        unfold number_to_string in En.
        destruct (Z.to_int (YearFromTime t)) as [u | u]; cbn in En;
          [|discriminate En].
        destruct u; discriminate En.
      * intros Hn. exfalso. apply Hn. exists t. split; [reflexivity|].
        apply Z.abs_le. exact H.
    + split; [|reflexivity]. intros _ (t' & E & R). injection E as <-.
      apply Z.abs_le in R. lia.
  - split; [|reflexivity]. intros _ (t' & E & _). discriminate E.
Qed.

End PickerMore.

(** ** The long years of the ISO weeks *)

Section IsoYears.
Import DatepickerTableRow.

(** X18.  With Monday as first day and the rule of the 4th of January,
    the years of 53 weeks are those of ISO 8601: the years that start on
    a Thursday, and the leap years that start on a Wednesday; every
    other year has 52 weeks. *)
Theorem weeksInYear_iso_long_year (Y w : Z) :
  -271820 <= Y <= 275759 -> ~ (0 <= Y <= 99) -> Y <> -1 ->
  getDay (new_Date3 (Some Y) (Some 0) (Some 1)) = Some w ->
  (weeksInYear (Some Y) 1 4 = Some (inject_Z 53) <->
   w = 4 \/ (w = 3 /\ daysInYear (Some Y) = 366)) /\
  (weeksInYear (Some Y) 1 4 = Some (inject_Z 52) <->
   ~ (w = 4 \/ (w = 3 /\ daysInYear (Some Y) = 366))).
Proof.
  intros Hr Hp H1 Hw.
  assert (Hc : config_ok 1 4) by (split; [lia | right; reflexivity]).
  assert (Ew : w = (DayFromYear Y + 4) mod 7).
  { unfold new_Date3, new_Date in Hw.
    replace ((0 <=? Y) && (Y <=? 99)) with false in Hw
      by (symmetry; apply Bool.andb_false_iff; rewrite !Z.leb_gt; lia).
    rewrite MakeDay_january in Hw.
    pose proof (DayFromYear_range Y ltac:(lia)) as Hd.
    rewrite TimeClip_day in Hw by lia.
    unfold getDay, getTime, lift1, WeekDay, Day, msPerDay in Hw.
    rewrite Z.div_mul in Hw by lia. injection Hw as <-. f_equal. lia. }
  rewrite weeksInYear_index by (auto; lia).
  rewrite (proj2 (daysInYear_gregorian Y)).
  rewrite effective_year_plain by lia.
  pose proof (firstWeekIndex_succ Y 1 4 Hc) as Hs.
  pose proof (firstWeekIndex_step Y 1 4 Hc) as Hst.
  assert (Hn : DaysInYear Y - offset Y 1 4 + offset (Y + 1) 1 4 = 371 <->
               w = 4 \/ (w = 3 /\ DaysInYear Y = 366)).
  { subst w. unfold offset. rewrite DayFromYear_succ.
    generalize (DayFromYear Y). intros D.
    destruct (DaysInYear_cases Y) as [-> | ->]; elia. }
  split; split.
  - intros H. injection H as H. apply Hn. lia.
  - intros H. apply Hn in H. do 2 f_equal. lia.
  - intros H. injection H as H. intros H'. apply Hn in H'. lia.
  - intros H. do 2 f_equal. destruct Hst as [E | E]; [lia|].
    exfalso. apply H. apply Hn. lia.
Qed.

(** 2020 is a leap year that starts on a Wednesday. *)
Lemma weeksInYear_iso_long_year_witness :
  weeksInYear (Some 2020) 1 4 = Some (inject_Z 53).
Proof.
  apply (weeksInYear_iso_long_year 2020 3).
  - lia.
  - lia.
  - lia.
  - reflexivity.
  - right. split; reflexivity.
Defined.

End IsoYears.

(** ** The native input and the years before the year 0 *)

Section NativeInputEdge.
Import Datetimepicker.

Lemma number_to_string_neg z :
  z < 0 ->
  exists digits,
    number_to_string (Some z) = String "-" digits /\
    all_digits digits = true.
Proof.
  intros Hz. destruct z as [|p|p]; try lia.
  unfold number_to_string. cbn [Z.to_int NilZero.string_of_int].
  eexists. split; [reflexivity|].
  destruct (Pos.to_uint p) eqn:E; [reflexivity | ..];
    cbn [NilZero.string_of_uint]; rewrite <- E; apply all_digits_uint.
Qed.

(** X19.  A valid date before the year 0 does not survive the native
    input: [formatNative] writes its year with a minus sign, which the
    parser takes for a separator, so that the year is read from an empty
    piece and the setter is handed the Invalid Date. *)
Theorem formatNative_negative_year
    (this : Props) (st : State) (value : Date) (t : Z) :
  getTime value = Some t ->
  - maxTime <= t <= maxTime ->
  YearFromTime t < 0 ->
  onChangeNativePicker this st (formatNative (Some value))
  = computedValue_set this st (Some InvalidDate).
Proof.
  intros E Ht HY. destruct value as [tv]. simpl in E. subst tv.
  unfold formatNative. cbn [getTime]. unfold new_Date_value.
  rewrite TimeClip_in by exact Ht. cbn [getTime].
  unfold getFullYear, getMonth, getDate, getHours, getMinutes, getSeconds.
  cbn [getTime lift1 JS.add lift2].
  pose proof (MonthFromTime_bounds t) as HM.
  pose proof (DateFromTime_bounds t) as HD.
  assert (Hh : 0 <= HourFromTime t) by (unfold HourFromTime; elia).
  assert (Hmi : 0 <= MinFromTime t) by (unfold MinFromTime; elia).
  assert (Hs : 0 <= SecFromTime t) by (unfold SecFromTime; elia).
  destruct (number_to_string_neg (YearFromTime t) HY) as (Ys & -> & Yd).
  destruct (pad2_nonneg (MonthFromTime t + 1) ltac:(lia)) as (Md & Mp).
  destruct (pad2_nonneg (DateFromTime t) ltac:(lia)) as (Dd & Dp).
  destruct (pad2_nonneg (HourFromTime t) Hh) as (hd & hp).
  destruct (pad2_nonneg (MinFromTime t) Hmi) as (md & mp).
  destruct (pad2_nonneg (SecFromTime t) Hs) as (sd & sp).
  set (Ms := pad2 (Some (MonthFromTime t + 1))) in *.
  set (Ds := pad2 (Some (DateFromTime t))) in *.
  set (hs := pad2 (Some (HourFromTime t))) in *.
  set (ms := pad2 (Some (MinFromTime t))) in *.
  set (ss := pad2 (Some (SecFromTime t))) in *.
  match goal with
  | |- onChangeNativePicker _ _ ?f = _ =>
      change f with
        (String "-" (Ys ++ String "-" (Ms ++ String "-" (Ds ++ String "T"
           (hs ++ String ":" (ms ++ String ":" ss))))))%string
  end.
  unfold onChangeNativePicker.
  cbn [String.eqb]. cbn [split_D]. change (is_digit "-") with false. cbv iota.
  rewrite !split_D_sep by (auto; reflexivity).
  rewrite split_D_all_digits by auto.
  cbn [List.length Nat.leb List.nth].
  reflexivity.
Qed.

(** 15 June of the year -50 is written -50-06-15T00:00:00. *)
Lemma formatNative_negative_year_witness :
  formatNative (Some (new_Date3 (Some (-50)) (Some 5) (Some 15)))
  = "-50-06-15T00:00:00"%string /\
  onChangeNativePicker picker picker_state
    (formatNative (Some (new_Date3 (Some (-50)) (Some 5) (Some 15))))
  = computedValue_set picker picker_state (Some InvalidDate).
Proof.
  split; [reflexivity|].
  apply (formatNative_negative_year picker picker_state _ (-63730800000000)).
  - reflexivity.
  - unfold maxTime. lia.
  - change (YearFromTime (-63730800000000)) with (-50). lia.
Defined.

End NativeInputEdge.
